(** * Incremental-extraction utilities (SILVER_TRANFORMATIONS/utils.py)

    A shallow embedding of the six functions of [utils.py] together with
    the part of the tabular-query collaborator (Snowpark session and
    DataFrame) that they drive, followed by the properties of the module.

    Conventions of the embedding:
    - a cell is [option string]: [None] is SQL NULL, [Some v] a value in
      its textual form; in a FLOAT or DOUBLE column the text [NaN] is
      the floating-point NaN;
    - a stored table is a list of column names, the list of their type
      descriptors and a list of rows; table names are taken to be valid
      object names, the client-side check of names is not modelled;
      unquoted identifiers are folded to upper case, as the engine does,
      so stored column names are upper case;
    - the session is the store of tables, threaded explicitly: every
      operation maps a store to an outcome and a store;
    - a Python exception is a value carrying its class, its message
      ([str(e)]) and its [__cause__]. *)

From Stdlib Require Import ZArith String Ascii List Bool Lia.
From stdpp Require Import base option list strings gmap.
Import ListNotations.
Local Open Scope string_scope.
Local Open Scope list_scope.

(** ** Exceptions *)

Inductive exn_class :=
| ETLError
| ConfigError
| DataError
| SnowparkSQLException
| IndexError.

#[warnings="-register-all"]
Inductive exn := Exn (cls : exn_class) (msg : string) (cause : option exn).

Definition exn_cls (e : exn) : exn_class := let 'Exn c _ _ := e in c.
Definition exn_msg (e : exn) : string := let 'Exn _ m _ := e in m.
Definition exn_cause (e : exn) : option exn := let 'Exn _ _ c := e in c.

(** ** Stored tables and the session *)

Abbreviation cell := (option string).
Abbreviation row := (list cell).

(** Column type descriptors ([snowflake.snowpark.types]). *)
#[warnings="-register-all"]
Inductive DataType :=
| NullType
| BinaryType
| BooleanType
| DateType
| StringType
| ByteType
| ShortType
| IntegerType
| LongType
| FloatType
| DoubleType
| DecimalType (precision scale : Z)
| TimestampType
| TimeType
| VariantType
| GeographyType
| GeometryType
| ArrayType (element_type : DataType)
| MapType (key_type value_type : DataType)
| StructType (fields : list (string * DataType)).

Record table := Table {
  columns : list string;
  types : list DataType;
  rows : list row
}.

Abbreviation Session := (gmap string table).

Definition upper_ascii (c : ascii) : ascii :=
  let n := nat_of_ascii c in
  if (97 <=? n)%nat && (n <=? 122)%nat then ascii_of_nat (n - 32) else c.

Fixpoint upper (s : string) : string :=
  match s with
  | EmptyString => EmptyString
  | String c s' => String (upper_ascii c) (upper s')
  end.

Fixpoint col_index (name : string) (cols : list string) : option nat :=
  match cols with
  | [] => None
  | c :: cols' => if String.eqb c name then Some 0%nat else S <$> col_index name cols'
  end.

Definition cell_at (i : nat) (r : row) : cell := default None (r !! i).

Definition is_null (c : cell) : bool :=
  match c with None => true | Some _ => false end.

Definition is_float (d : DataType) : bool :=
  match d with
  | FloatType | DoubleType => true
  | _ => false
  end.

(** The type of the column at position [i]. *)
Definition col_type (tys : list DataType) (i : nat) : DataType :=
  default StringType (tys !! i).

Definition is_nan (v : string) : bool := String.eqb v "NaN".

(** What [dropna] counts as missing: NULL, and NaN in a FLOAT or DOUBLE
    column. *)
Definition is_missing (ty : DataType) (c : cell) : bool :=
  match c with
  | None => true
  | Some v => is_float ty && is_nan v
  end.

Definition missing_at (t : table) (r : row) (i : nat) : bool :=
  is_missing (col_type (types t) i) (cell_at i r).

Definition non_missing_count (t : table) (r : row) : nat :=
  length (List.filter (fun i => negb (missing_at t r i))
            (seq 0 (length (columns t)))).

(** ** Outcomes and the store-passing monad *)

Definition result (A : Type) : Type := exn + A.

Definition M (A : Type) : Type := Session -> result A * Session.

Definition ret {A} (a : A) : M A := fun s => (inr a, s).

Definition raise {A} (e : exn) : M A := fun s => (inl e, s).

Definition bind {A B} (m : M A) (k : A -> M B) : M B :=
  fun s => match m s with
           | (inl e, s') => (inl e, s')
           | (inr a, s') => k a s'
           end.

(** [try: m except Exception as e: h e] *)
Definition try_except {A} (m : M A) (h : exn -> M A) : M A :=
  fun s => match m s with
           | (inl e, s') => h e s'
           | (inr a, s') => (inr a, s')
           end.

Definition lift_result {A} (f : Session -> result A) : M A :=
  fun s => (f s, s).

Notation "x <- m ;; k" := (bind m (fun x => k))
  (at level 100, m at next level, right associativity).

(** Python indexing [l[i]]. *)
Definition py_index {A} (l : list A) (i : nat) : M A :=
  match l !! i with
  | Some a => ret a
  | None => raise (Exn IndexError "list index out of range" None)
  end.

(** ** DataFrames: lazy query plans *)

Inductive predicate :=
| ColEq (col : string) (v : string)
| ColGt (col : string) (v : string).

Inductive dropna_how := HowAny | HowAll.

Inductive DataFrame :=
| DfTable (name : string)
| DfFilter (p : predicate) (df : DataFrame)
| DfSelect (cols : list string) (df : DataFrame)
| DfAggMax (col : string) (df : DataFrame)
| DfDropna (how : dropna_how) (df : DataFrame).

(** The engine's native [>] on two non-null values. *)
Class Collation := {
  cell_gt : string -> string -> bool;
  cell_gt_irrefl : forall v, cell_gt v v = false
}.

Definition sql_error (m : string) : exn := Exn SnowparkSQLException m None.

Definition resolve_col (name : string) (t : table) : result nat :=
  match col_index (upper name) (columns t) with
  | Some i => inr i
  | None => inl (sql_error ("invalid identifier '" +:+ upper name +:+ "'"))
  end.

Fixpoint resolve_cols (names : list string) (t : table) : result (list nat) :=
  match names with
  | [] => inr []
  | n :: names' =>
      match resolve_col n t with
      | inl e => inl e
      | inr i => match resolve_cols names' t with
                 | inl e => inl e
                 | inr ixs => inr (i :: ixs)
                 end
      end
  end.

Section Engine.
Context {engine : Collation}.

(** A comparison with NULL is NULL, which a filter treats as false. *)
Definition holds (p : predicate) (i : nat) (r : row) : bool :=
  match p, cell_at i r with
  | _, None => false
  | ColEq _ v, Some x => String.eqb x v
  | ColGt _ v, Some x => cell_gt x v
  end.

Definition pred_col (p : predicate) : string :=
  match p with ColEq c _ => c | ColGt c _ => c end.

(** MAX ignores NULLs and is NULL when no non-null value is left. *)
Definition max_cell (acc c : cell) : cell :=
  match acc, c with
  | None, _ => c
  | _, None => acc
  | Some a, Some b => if cell_gt b a then Some b else Some a
  end.

(** [dropna(how)] over all the columns: a row stays when its number of
    non-missing columns reaches the threshold, 1 for ["all"] and the
    number of columns for ["any"]; with no column nothing is dropped. *)
Definition keeps (how : dropna_how) (t : table) (r : row) : bool :=
  let n := length (columns t) in
  let thresh := match how with HowAll => 1%nat | HowAny => n end in
  if (thresh <? 1)%nat || (n =? 0)%nat then true
  else if (n <? thresh)%nat then false
  else (thresh <=? non_missing_count t r)%nat.

Fixpoint eval (df : DataFrame) (s : Session) : result table :=
  match df with
  | DfTable name =>
      match s !! upper name with
      | Some t => inr t
      | None => inl (sql_error ("Object '" +:+ upper name
                                 +:+ "' does not exist or not authorized."))
      end
  | DfFilter p d =>
      match eval d s with
      | inl e => inl e
      | inr t =>
          match resolve_col (pred_col p) t with
          | inl e => inl e
          | inr i => inr (Table (columns t) (types t)
                           (List.filter (holds p i) (rows t)))
          end
      end
  | DfSelect cols d =>
      match eval d s with
      | inl e => inl e
      | inr t =>
          match resolve_cols cols t with
          | inl e => inl e
          | inr ixs => inr (Table (List.map upper cols)
                             (List.map (col_type (types t)) ixs)
                             (List.map (fun r => List.map (fun i => cell_at i r) ixs) (rows t)))
          end
      end
  | DfAggMax col d =>
      match eval d s with
      | inl e => inl e
      | inr t =>
          match resolve_col col t with
          | inl e => inl e
          | inr i =>
              inr (Table ["MAX(" +:+ upper col +:+ ")"] [col_type (types t) i]
                     [[fold_left max_cell (List.map (cell_at i) (rows t)) None]])
          end
      end
  | DfDropna how d =>
      match eval d s with
      | inl e => inl e
      | inr t => inr (Table (columns t) (types t)
                       (List.filter (keeps how t) (rows t)))
      end
  end.

(** [df.collect()] and [df.count()] force the plan on the current store. *)
Definition collect (df : DataFrame) : M (list row) :=
  lift_result (fun s => match eval df s with
                        | inl e => inl e
                        | inr t => inr (rows t)
                        end).

Definition count (df : DataFrame) : M Z :=
  lift_result (fun s => match eval df s with
                        | inl e => inl e
                        | inr t => inr (Z.of_nat (length (rows t)))
                        end).

(** [df.dropna(how=...)] reads the schema of [df] when it is called. *)
Definition dropna (how : dropna_how) (df : DataFrame) : M DataFrame :=
  lift_result (fun s => match eval df s with
                        | inl e => inl e
                        | inr _ => inr (DfDropna how df)
                        end).

(** ** The module: readers *)

Definition CONFIG_TABLE : string := "UTILS.CONFIG.DEV_CONFIG_TABLES".
Definition TIMESTAMP_FIELD : string := "current_timestamp".

Definition config_query (table_name : string) : DataFrame :=
  DfSelect ["silver_last_update"]
    (DfFilter (ColEq "table_name" table_name) (DfTable CONFIG_TABLE)).

Definition find_last_update_date (table_name : string) : M cell :=
  try_except
    (result <- collect (config_query table_name) ;;
     match result with
     | [] => raise (Exn ConfigError
                      ("No configuration found for table " +:+ table_name) None)
     | _ :: _ =>
         r0 <- py_index result 0 ;;
         py_index r0 0
     end)
    (fun e => raise (Exn ConfigError
                       ("Failed to retrieve last update date for " +:+ table_name
                          +:+ ": " +:+ exn_msg e) (Some e))).

Definition delta_query (table_name last_update : string) : DataFrame :=
  DfFilter (ColGt TIMESTAMP_FIELD last_update) (DfTable table_name).

Definition find_delta (table_name last_update : string) : M (DataFrame * Z) :=
  try_except
    (let df := delta_query table_name last_update in
     delta_count <- count df ;;
     ret (df, delta_count))
    (fun e => raise (Exn DataError
                       ("Failed to find delta records for " +:+ table_name
                          +:+ ": " +:+ exn_msg e) (Some e))).

Definition find_latest_timestamp (df : DataFrame) : M cell :=
  try_except
    (result <- collect (DfAggMax TIMESTAMP_FIELD df) ;;
     r0 <- py_index result 0 ;;
     latest <- py_index r0 0 ;;
     ret latest)
    (fun e => raise (Exn DataError
                       ("Failed to find latest timestamp: " +:+ exn_msg e) (Some e))).

Definition remove_null_rows (delta_df : DataFrame) : M (DataFrame * Z) :=
  try_except
    (initial_count <- count delta_df ;;
     cleaned_df <- dropna HowAll delta_df ;;
     final_count <- count cleaned_df ;;
     let null_count := (initial_count - final_count)%Z in
     ret (cleaned_df, null_count))
    (fun e => raise (Exn DataError
                       ("Failed to remove null rows: " +:+ exn_msg e) (Some e))).

End Engine.

(** ** The engine's statement interface: [session.sql(text).collect()]

    [update_config] hands the engine a statement as text, so the text is
    modelled as text: it is split into tokens, parsed and executed.  The
    fragment covers what an UPDATE of this shape can contain: identifiers
    (folded to upper case), single-quoted string constants (a doubled
    quote or a backslash escape inside them), [=], [,] and the
    concatenation operator, and the comments ([--] and [//] to the end
    of the line, [/* ... */]).  A backslash before a character without
    a listed meaning is dropped; octal and hexadecimal escapes are not
    interpreted.  Numbers, parentheses and other operators are outside
    the fragment and rejected. *)

Inductive token :=
| TId (name : string)
| TStr (v : string)
| TEq
| TComma
| TConcat.

Inductive lex_state :=
| LIdle
| LIdent (acc : string)
| LStr (acc : string)
| LQuote (acc : string)
| LEsc (acc : string)
| LBar
| LDash
| LSlash
| LLine
| LBlock
| LBlockStar.

Definition quote : ascii := "'"%char.
Definition backslash : ascii := "\"%char.

Definition is_space (c : ascii) : bool :=
  let n := nat_of_ascii c in
  (n =? 32)%nat || (n =? 9)%nat || (n =? 10)%nat || (n =? 13)%nat.

Definition is_ident_start (c : ascii) : bool :=
  let n := nat_of_ascii c in
  ((65 <=? n)%nat && (n <=? 90)%nat) || ((97 <=? n)%nat && (n <=? 122)%nat)
  || (n =? 95)%nat.

Definition is_ident_char (c : ascii) : bool :=
  let n := nat_of_ascii c in
  is_ident_start c || ((48 <=? n)%nat && (n <=? 57)%nat)
  || (n =? 36)%nat || (n =? 46)%nat.

Definition unescape (c : ascii) : ascii :=
  if Ascii.eqb c "n" then "010"%char
  else if Ascii.eqb c "t" then "009"%char
  else if Ascii.eqb c "r" then "013"%char
  else if Ascii.eqb c "b" then "008"%char
  else if Ascii.eqb c "f" then "012"%char
  else if Ascii.eqb c "0" then "000"%char
  else c.

Definition snoc (acc : string) (c : ascii) : string := acc +:+ String c "".

Definition step_idle (c : ascii) : option (list token * lex_state) :=
  if is_space c then Some ([], LIdle)
  else if is_ident_start c then Some ([], LIdent (String c ""))
  else if Ascii.eqb c quote then Some ([], LStr "")
  else if Ascii.eqb c "=" then Some ([TEq], LIdle)
  else if Ascii.eqb c "," then Some ([TComma], LIdle)
  else if Ascii.eqb c "|" then Some ([], LBar)
  else if Ascii.eqb c "-" then Some ([], LDash)
  else if Ascii.eqb c "/" then Some ([], LSlash)
  else None.

Definition step (st : lex_state) (c : ascii) : option (list token * lex_state) :=
  match st with
  | LIdle => step_idle c
  | LIdent acc =>
      if is_ident_char c then Some ([], LIdent (snoc acc c))
      else '(out, st') ← step_idle c; Some (TId (upper acc) :: out, st')
  | LStr acc =>
      if Ascii.eqb c quote then Some ([], LQuote acc)
      else if Ascii.eqb c backslash then Some ([], LEsc acc)
      else Some ([], LStr (snoc acc c))
  | LQuote acc =>
      if Ascii.eqb c quote then Some ([], LStr (snoc acc quote))
      else '(out, st') ← step_idle c; Some (TStr acc :: out, st')
  | LEsc acc => Some ([], LStr (snoc acc (unescape c)))
  | LBar => if Ascii.eqb c "|" then Some ([TConcat], LIdle) else None
  | LDash => if Ascii.eqb c "-" then Some ([], LLine) else None
  | LSlash =>
      if Ascii.eqb c "/" then Some ([], LLine)
      else if Ascii.eqb c "*" then Some ([], LBlock)
      else None
  | LLine => if Ascii.eqb c "010" then Some ([], LIdle) else Some ([], LLine)
  | LBlock => if Ascii.eqb c "*" then Some ([], LBlockStar) else Some ([], LBlock)
  | LBlockStar =>
      if Ascii.eqb c "/" then Some ([], LIdle)
      else if Ascii.eqb c "*" then Some ([], LBlockStar)
      else Some ([], LBlock)
  end.

Definition finish (st : lex_state) : option (list token) :=
  match st with
  | LIdle => Some []
  | LIdent acc => Some [TId (upper acc)]
  | LQuote acc => Some [TStr acc]
  | LLine => Some []
  | LStr _ | LEsc _ | LBar | LDash | LSlash | LBlock | LBlockStar => None
  end.

Fixpoint lex_run (st : lex_state) (text : string)
  : option (list token * lex_state) :=
  match text with
  | EmptyString => Some ([], st)
  | String c text' =>
      '(o1, st1) ← step st c;
      '(o2, st2) ← lex_run st1 text';
      Some (o1 ++ o2, st2)
  end.

Definition lex (text : string) : option (list token) :=
  '(out, st) ← lex_run LIdle text;
  last ← finish st;
  Some (out ++ last).

Inductive expr :=
| ELit (v : string)
| ECol (name : string)
| EConcat (a b : expr).

Inductive cond := CEq (a b : expr).

Record update_stmt := UpdateStmt {
  target : string;
  sets : list (string * expr);
  where_clause : option cond
}.

Definition is_keyword (x : string) : bool :=
  String.eqb x "UPDATE" || String.eqb x "SET" || String.eqb x "WHERE".

Definition is_kw (k : string) (t : token) : bool :=
  match t with TId x => String.eqb x k | _ => false end.

Definition is_comma (t : token) : bool :=
  match t with TComma => true | _ => false end.

Definition is_eq (t : token) : bool :=
  match t with TEq => true | _ => false end.

Definition parse_atom (t : token) : option expr :=
  match t with
  | TStr v => Some (ELit v)
  | TId x => if is_keyword x then None else Some (ECol x)
  | _ => None
  end.

Fixpoint parse_concat (e : expr) (ts : list token) : option expr :=
  match ts with
  | [] => Some e
  | TConcat :: t :: ts' => a ← parse_atom t; parse_concat (EConcat e a) ts'
  | _ => None
  end.

Definition parse_expr (ts : list token) : option expr :=
  match ts with
  | t :: ts' => a ← parse_atom t; parse_concat a ts'
  | [] => None
  end.

(** Tokens before the first one satisfying [p], and those after it. *)
Fixpoint break (p : token -> bool) (ts : list token)
  : list token * option (list token) :=
  match ts with
  | [] => ([], None)
  | t :: ts' =>
      if p t then ([], Some ts')
      else let '(a, b) := break p ts' in (t :: a, b)
  end.

Fixpoint split_on (p : token -> bool) (ts : list token) : list (list token) :=
  match ts with
  | [] => [[]]
  | t :: ts' =>
      if p t then [] :: split_on p ts'
      else match split_on p ts' with
           | g :: gs => (t :: g) :: gs
           | [] => [[t]]
           end
  end.

Definition parse_assignment (ts : list token) : option (string * expr) :=
  match ts with
  | TId c :: TEq :: rhs =>
      if is_keyword c then None else e ← parse_expr rhs; Some (c, e)
  | _ => None
  end.

Definition parse_cond (ts : list token) : option cond :=
  match break is_eq ts with
  | (lhs, Some rhs) => a ← parse_expr lhs; b ← parse_expr rhs; Some (CEq a b)
  | (_, None) => None
  end.

Definition parse (ts : list token) : option update_stmt :=
  match ts with
  | TId kw1 :: TId tgt :: TId kw2 :: rest =>
      if String.eqb kw1 "UPDATE" && negb (is_keyword tgt) && String.eqb kw2 "SET"
      then
        let '(set_ts, where_ts) := break (is_kw "WHERE") rest in
        assignments ← mapM parse_assignment (split_on is_comma set_ts);
        w ← match where_ts with
            | None => Some None
            | Some wts => Some <$> parse_cond wts
            end;
        Some (UpdateStmt tgt assignments w)
      else None
  | _ => None
  end.

Fixpoint expr_ok (cols : list string) (e : expr) : bool :=
  match e with
  | ELit _ => true
  | ECol n => bool_decide (is_Some (col_index n cols))
  | EConcat a b => expr_ok cols a && expr_ok cols b
  end.

Fixpoint eval_expr (cols : list string) (r : row) (e : expr) : cell :=
  match e with
  | ELit v => Some v
  | ECol n => match col_index n cols with
              | Some i => cell_at i r
              | None => None
              end
  | EConcat a b =>
      match eval_expr cols r a, eval_expr cols r b with
      | Some x, Some y => Some (x +:+ y)
      | _, _ => None
      end
  end.

Definition cond_ok (cols : list string) (c : cond) : bool :=
  let 'CEq a b := c in expr_ok cols a && expr_ok cols b.

Definition cond_holds (cols : list string) (r : row) (c : cond) : bool :=
  let 'CEq a b := c in
  match eval_expr cols r a, eval_expr cols r b with
  | Some x, Some y => String.eqb x y
  | _, _ => false
  end.

Definition selected (cols : list string) (w : option cond) (r : row) : bool :=
  match w with
  | None => true
  | Some c => cond_holds cols r c
  end.

(** Every right-hand side is evaluated on the row as it was. *)
Definition assign (cols : list string) (old : row) (acc : row)
    (a : string * expr) : row :=
  match col_index a.1 cols with
  | Some i => <[i := eval_expr cols old a.2]> acc
  | None => acc
  end.

Definition apply_sets (cols : list string) (sets : list (string * expr))
    (r : row) : row :=
  fold_left (assign cols r) sets r.

Definition stmt_ok (cols : list string) (st : update_stmt) : bool :=
  forallb (fun a => expr_ok cols (ECol a.1) && expr_ok cols a.2) (sets st)
  && bool_decide (NoDup (sets st).*1)
  && match where_clause st with
     | None => true
     | Some c => cond_ok cols c
     end.

Definition update_row (cols : list string) (st : update_stmt) (r : row) : row :=
  if selected cols (where_clause st) r then apply_sets cols (sets st) r else r.

(** Runs the UPDATE; the value is the engine's "number of rows updated". *)
Definition exec_update (st : update_stmt) : M Z :=
  fun s =>
    match s !! target st with
    | None => (inl (sql_error ("Object '" +:+ target st
                                 +:+ "' does not exist or not authorized.")), s)
    | Some t =>
        if stmt_ok (columns t) st then
          (inr (Z.of_nat (length (List.filter (selected (columns t) (where_clause st))
                                    (rows t)))),
           <[target st := Table (columns t) (types t)
                            (List.map (update_row (columns t) st) (rows t))]> s)
        else (inl (sql_error "SQL compilation error: invalid identifier"), s)
    end.

Definition sql_collect (text : string) : M Z :=
  match lex text with
  | None => raise (sql_error "SQL compilation error: syntax error")
  | Some ts =>
      match parse ts with
      | None => raise (sql_error "SQL compilation error: syntax error")
      | Some st => exec_update st
      end
  end.

(** ** The module: the writer *)

Definition update_text (table_name latest_timestamp : string) : string :=
  "
            UPDATE " +:+ CONFIG_TABLE +:+ "
            SET silver_last_update = '" +:+ latest_timestamp +:+ "'
            WHERE table_name = '" +:+ table_name +:+ "'
        ".

Definition update_config (table_name latest_timestamp : string) : M unit :=
  try_except
    (_ <- sql_collect (update_text table_name latest_timestamp) ;;
     ret tt)
    (fun e => raise (Exn ConfigError
                       ("Failed to update configuration for " +:+ table_name
                          +:+ ": " +:+ exn_msg e) (Some e))).

(** ** The type classifier *)

Inductive type_class :=
| CNull | CBinary | CBoolean | CDate | CString | CByte | CShort | CInteger
| CLong | CFloat | CDouble | CDecimal | CTimestamp | CTime | CVariant
| CGeography | CGeometry | CArray | CMap | CStruct.

Global Instance type_class_eq_dec : EqDecision type_class.
Proof. solve_decision. Defined.

Definition class_of (d : DataType) : type_class :=
  match d with
  | NullType => CNull
  | BinaryType => CBinary
  | BooleanType => CBoolean
  | DateType => CDate
  | StringType => CString
  | ByteType => CByte
  | ShortType => CShort
  | IntegerType => CInteger
  | LongType => CLong
  | FloatType => CFloat
  | DoubleType => CDouble
  | DecimalType _ _ => CDecimal
  | TimestampType => CTimestamp
  | TimeType => CTime
  | VariantType => CVariant
  | GeographyType => CGeography
  | GeometryType => CGeometry
  | ArrayType _ => CArray
  | MapType _ _ => CMap
  | StructType _ => CStruct
  end.

(** [isinstance(d, (c1, ..., cn))]; none of the classes has a subclass. *)
Definition isinstance (d : DataType) (classes : list type_class) : bool :=
  existsb (fun c => bool_decide (class_of d = c)) classes.

Definition is_simple_type (data_type : DataType) : bool :=
  negb (isinstance data_type [CMap; CArray; CStruct]).

(** ** A concrete collation: byte-wise comparison of the textual values *)

Definition binary_collation : Collation.
Proof.
  refine {| cell_gt := fun a b => String.ltb b a |}.
  intros v. unfold String.ltb.
  pose proof (String.compare_antisym v v) as Hanti.
  destruct (String.compare v v); simpl in Hanti; congruence.
Defined.

(** ** Vocabulary of the properties *)

(** The configuration store of session [s]: the stored table [cfg] and the
    positions of its two columns. *)
Definition config_store (s : Session) (cfg : table) (i j : nat) : Prop :=
  s !! CONFIG_TABLE = Some cfg
  /\ col_index "TABLE_NAME" (columns cfg) = Some i
  /\ col_index "SILVER_LAST_UPDATE" (columns cfg) = Some j.

(** The Configuration Records of [name], in stored order. *)
Definition matching_records (cfg : table) (i : nat) (name : string) : list row :=
  List.filter (fun r => bool_decide (cell_at i r = Some name)) (rows cfg).

(** A value strictly exceeds the watermark; NULL exceeds nothing. *)
Definition exceeds {engine : Collation} (W : string) (c : cell) : bool :=
  match c with
  | Some v => cell_gt v W
  | None => false
  end.

(** The rows of [T] newer than the watermark. *)
Definition newer_rows {engine : Collation} (W : string) (k : nat) (T : table)
  : list row :=
  List.filter (fun r => exceeds W (cell_at k r)) (rows T).

(** Every column of the row is missing (and there is a column). *)
Definition all_missing (t : table) (r : row) : bool :=
  match columns t with
  | [] => false
  | _ :: _ => forallb (missing_at t r) (seq 0 (length (columns t)))
  end.

(** The rows of [t] left once the rows missing in every column are gone. *)
Definition kept_rows (t : table) : list row :=
  List.filter (fun r => negb (all_missing t r)) (rows t).

(** The three nested kinds of type descriptor. *)
Definition nested_kind (d : DataType) : Prop :=
  (exists k v, d = MapType k v)
  \/ (exists e, d = ArrayType e)
  \/ (exists fs, d = StructType fs).

(** No quote and no backslash: interpolated between two quotes, such a
    string is one string constant, with itself as its value. *)
Fixpoint sql_safe (v : string) : bool :=
  match v with
  | EmptyString => true
  | String c v' =>
      negb (Ascii.eqb c quote) && negb (Ascii.eqb c backslash) && sql_safe v'
  end.

(** The statement text around the two interpolated values, and the
    statement it denotes when both values are safe. *)
Definition update_prefix : string :=
  "
            UPDATE UTILS.CONFIG.DEV_CONFIG_TABLES
            SET silver_last_update = '".

Definition update_middle : string :=
  "'
            WHERE table_name = '".

Definition update_suffix : string :=
  "'
        ".

Definition config_update (table_name latest_timestamp : string) : update_stmt :=
  UpdateStmt CONFIG_TABLE
    [("SILVER_LAST_UPDATE", ELit latest_timestamp)]
    (Some (CEq (ECol "TABLE_NAME") (ELit table_name))).

(** The engine's [>] is transitive. *)
Definition gt_transitive {engine : Collation} : Prop :=
  forall a b c, cell_gt a b = true -> cell_gt b c = true -> cell_gt a c = true.

(** Every row has one cell per column. *)
Definition well_formed (t : table) : Prop :=
  Forall (fun r : row => length r = length (columns t)) (rows t).

(** The values of the column at position [k], row by row. *)
Definition column_values (k : nat) (t : table) : list cell :=
  List.map (cell_at k) (rows t).

(** What the UPDATE of [update_config] does to one record when both
    values are safe. *)
Definition set_watermark (i j : nat) (name ts : string) (r : row) : row :=
  if bool_decide (cell_at i r = Some name) then <[j := Some ts]> r else r.

(** ** Sample data: the scenario of the ORDERS table *)

Definition sample_config : table :=
  Table ["TABLE_NAME"; "SILVER_LAST_UPDATE"] [StringType; StringType]
    [[Some "ORDERS"; Some "2024-01-01T00:00:00"];
     [Some "ITEMS"; Some "2023-05-05T00:00:00"];
     [Some "DUP"; Some "2022-02-02T00:00:00"];
     [Some "DUP"; Some "2021-01-01T00:00:00"];
     [Some "LOG\RAW"; Some "2020-06-30T00:00:00"]].

Definition sample_orders : table :=
  Table ["ID"; "CURRENT_TIMESTAMP"] [IntegerType; TimestampType]
    [[Some "1"; Some "2023-12-31"];
     [Some "2"; Some "2024-01-01"];
     [Some "3"; Some "2024-01-02"];
     [Some "4"; Some "2024-01-03"];
     [Some "5"; Some "2024-01-03"];
     [None; None]].

Definition sample_empty : table :=
  Table ["ID"; "CURRENT_TIMESTAMP"] [IntegerType; TimestampType] [].

(** Readings with a DOUBLE column: one row holds NaN and NULL. *)
Definition sample_readings : table :=
  Table ["VALUE"; "NOTE"] [DoubleType; StringType]
    [[Some "NaN"; None];
     [Some "1.5"; None];
     [None; None];
     [None; Some "NaN"]].

Definition sample_readings_session : Session :=
  <["READINGS" := sample_readings]> ∅.

Definition sample_session : Session :=
  <["EMPTY" := sample_empty]>
    (<["ORDERS" := sample_orders]> (<[CONFIG_TABLE := sample_config]> ∅)).

(** ** Properties of the engine model *)

Lemma upper_CONFIG_TABLE : upper CONFIG_TABLE = CONFIG_TABLE.
Proof. reflexivity. Qed.

Lemma eqb_bool_decide (x v : string) :
  String.eqb x v = bool_decide (Some x = Some v).
Proof.
  destruct (String.eqb_spec x v) as [->|Hne].
  - symmetry. apply bool_decide_eq_true. reflexivity.
  - symmetry. apply bool_decide_eq_false. congruence.
Qed.

Section ReaderProperties.
Context {engine : Collation}.

Lemma holds_eq_matching (name : string) (i : nat) (r : row) :
  holds (ColEq "table_name" name) i r = bool_decide (cell_at i r = Some name).
Proof.
  unfold holds. destruct (cell_at i r) as [x|].
  - apply eqb_bool_decide.
  - symmetry. apply bool_decide_eq_false. discriminate.
Qed.

Lemma eval_config_query (s : Session) (name : string) cfg i j :
  config_store s cfg i j ->
  eval (config_query name) s
  = inr (Table ["SILVER_LAST_UPDATE"] [col_type (types cfg) j]
           (List.map (fun r => [cell_at j r]) (matching_records cfg i name))).
Proof.
  intros (Hcfg & Hi & Hj).
  unfold config_query. cbn [eval].
  rewrite upper_CONFIG_TABLE, Hcfg.
  unfold resolve_col. cbn [pred_col columns].
  change (upper "table_name") with "TABLE_NAME". rewrite Hi.
  cbn [resolve_cols]. unfold resolve_col. cbn [columns].
  change (upper "silver_last_update") with "SILVER_LAST_UPDATE". rewrite Hj.
  cbn [rows List.map]. f_equal. f_equal.
  unfold matching_records. f_equal.
  apply List.filter_ext. intros r. apply holds_eq_matching.
Qed.

(** Zero records: the not-found error is raised inside the [try] and
    wrapped by the handler. *)
Lemma find_last_update_date_no_record (s : Session) (name : string) cfg i j :
  config_store s cfg i j ->
  matching_records cfg i name = [] ->
  find_last_update_date name s
  = (inl (Exn ConfigError
            ("Failed to retrieve last update date for " +:+ name +:+ ": "
               +:+ "No configuration found for table " +:+ name)
            (Some (Exn ConfigError
                     ("No configuration found for table " +:+ name) None))), s).
Proof.
  intros Hstore Hnone.
  unfold find_last_update_date, try_except, bind, collect, lift_result.
  rewrite (eval_config_query s name cfg i j Hstore), Hnone.
  reflexivity.
Qed.

Lemma find_last_update_date_first (s : Session) (name : string) cfg i j r rest :
  config_store s cfg i j ->
  matching_records cfg i name = r :: rest ->
  find_last_update_date name s = (inr (cell_at j r), s).
Proof.
  intros Hstore Hrec.
  unfold find_last_update_date, try_except, bind, collect, lift_result.
  rewrite (eval_config_query s name cfg i j Hstore), Hrec.
  reflexivity.
Qed.

Lemma find_last_update_date_engine_failure (s : Session) (name : string) e0 :
  eval (config_query name) s = inl e0 ->
  find_last_update_date name s
  = (inl (Exn ConfigError
            ("Failed to retrieve last update date for " +:+ name +:+ ": "
               +:+ exn_msg e0) (Some e0)), s).
Proof.
  intros Hfail.
  unfold find_last_update_date, try_except, bind, collect, lift_result.
  rewrite Hfail. reflexivity.
Qed.

End ReaderProperties.

(** ** Properties of the statement interface *)

Lemma update_text_split (table_name latest_timestamp : string) :
  update_text table_name latest_timestamp
  = update_prefix +:+ latest_timestamp +:+ update_middle
      +:+ table_name +:+ update_suffix.
Proof. reflexivity. Qed.

Lemma append_cons (c : ascii) (a b : string) :
  String c a +:+ b = String c (a +:+ b).
Proof. reflexivity. Qed.

Lemma snoc_append (acc : string) (c : ascii) (v : string) :
  snoc acc c +:+ v = acc +:+ String c v.
Proof.
  unfold snoc. induction acc as [|a acc IH].
  - reflexivity.
  - rewrite !append_cons, IH. reflexivity.
Qed.

Lemma append_nil_r (a : string) : a +:+ "" = a.
Proof.
  induction a as [|c a IH]; [reflexivity|]. rewrite append_cons, IH. reflexivity.
Qed.

Lemma lex_run_app (st : lex_state) (a b : string) :
  lex_run st (a +:+ b)
  = match lex_run st a with
    | None => None
    | Some (o1, st1) =>
        match lex_run st1 b with
        | None => None
        | Some (o2, st2) => Some (o1 ++ o2, st2)
        end
    end.
Proof.
  revert st. induction a as [|c a IH]; intros st.
  - change ("" +:+ b) with b. cbn.
    destruct (lex_run st b) as [[o2 st2]|]; reflexivity.
  - rewrite append_cons. cbn [lex_run].
    destruct (step st c) as [[o st']|]; cbn; [|reflexivity].
    rewrite IH. destruct (lex_run st' a) as [[oa sta]|]; cbn; [|reflexivity].
    destruct (lex_run sta b) as [[ob stb]|]; cbn; [|reflexivity].
    rewrite app_assoc. reflexivity.
Qed.

(** Inside a string constant a safe value is taken over unchanged. *)
Lemma lex_run_safe (v acc : string) :
  sql_safe v = true ->
  lex_run (LStr acc) v = Some ([], LStr (acc +:+ v)).
Proof.
  revert acc. induction v as [|c v IH]; intros acc Hsafe.
  - cbn. rewrite append_nil_r. reflexivity.
  - cbn [sql_safe] in Hsafe.
    apply andb_prop in Hsafe as [Hc Hv]. apply andb_prop in Hc as [Hq Hb].
    apply negb_true_iff in Hq, Hb.
    cbn [lex_run step]. rewrite Hq, Hb. cbn.
    rewrite (IH _ Hv). cbn. rewrite snoc_append. reflexivity.
Qed.

Lemma lex_run_prefix :
  lex_run LIdle update_prefix
  = Some ([TId "UPDATE"; TId "UTILS.CONFIG.DEV_CONFIG_TABLES"; TId "SET";
           TId "SILVER_LAST_UPDATE"; TEq], LStr "").
Proof. vm_compute. reflexivity. Qed.

Lemma lex_run_middle (acc : string) :
  lex_run (LStr acc) update_middle
  = Some ([TStr acc; TId "WHERE"; TId "TABLE_NAME"; TEq], LStr "").
Proof. vm_compute. reflexivity. Qed.

Lemma lex_run_suffix (acc : string) :
  lex_run (LStr acc) update_suffix = Some ([TStr acc], LIdle).
Proof. vm_compute. reflexivity. Qed.

Lemma lex_update_text (table_name latest_timestamp : string) :
  sql_safe table_name = true ->
  sql_safe latest_timestamp = true ->
  lex (update_text table_name latest_timestamp)
  = Some [TId "UPDATE"; TId "UTILS.CONFIG.DEV_CONFIG_TABLES"; TId "SET";
          TId "SILVER_LAST_UPDATE"; TEq; TStr latest_timestamp;
          TId "WHERE"; TId "TABLE_NAME"; TEq; TStr table_name].
Proof.
  intros Hname Hts. unfold lex. rewrite update_text_split.
  rewrite lex_run_app, lex_run_prefix. cbv beta iota.
  rewrite lex_run_app, (lex_run_safe _ "" Hts). cbv beta iota.
  change ("" +:+ latest_timestamp) with latest_timestamp.
  rewrite lex_run_app, lex_run_middle. cbv beta iota.
  rewrite lex_run_app, (lex_run_safe _ "" Hname). cbv beta iota.
  change ("" +:+ table_name) with table_name.
  rewrite lex_run_suffix. reflexivity.
Qed.

Lemma sql_collect_update_text (table_name latest_timestamp : string) :
  sql_safe table_name = true ->
  sql_safe latest_timestamp = true ->
  sql_collect (update_text table_name latest_timestamp)
  = exec_update (config_update table_name latest_timestamp).
Proof.
  intros Hname Hts. unfold sql_collect.
  rewrite (lex_update_text _ _ Hname Hts). reflexivity.
Qed.

Lemma col_index_inj (a b : string) (cols : list string) (k : nat) :
  col_index a cols = Some k -> col_index b cols = Some k -> a = b.
Proof.
  revert k. induction cols as [|c cols IH]; intros k Ha Hb; [discriminate|].
  cbn in Ha, Hb.
  destruct (String.eqb_spec c a) as [Hca|Hca];
    destruct (String.eqb_spec c b) as [Hcb|Hcb].
  - congruence.
  - destruct (col_index b cols); cbn in Hb; congruence.
  - destruct (col_index a cols); cbn in Ha; congruence.
  - destruct (col_index a cols) as [ka|]; destruct (col_index b cols) as [kb|];
      cbn in Ha, Hb; try discriminate.
    apply (IH ka); congruence.
Qed.

Lemma cell_at_insert_ne (i j : nat) (v : cell) (r : row) :
  i <> j -> cell_at i (<[j := v]> r) = cell_at i r.
Proof.
  intros Hne. unfold cell_at. rewrite list_lookup_insert_ne by congruence.
  reflexivity.
Qed.

Section ConfigUpdate.
Variables (table_name latest_timestamp : string).
Variables (cols : list string) (i j : nat).
Hypothesis Hi : col_index "TABLE_NAME" cols = Some i.
Hypothesis Hj : col_index "SILVER_LAST_UPDATE" cols = Some j.

Let st := config_update table_name latest_timestamp.

Lemma config_update_ok : stmt_ok cols st = true.
Proof.
  unfold stmt_ok, st, config_update. cbn [sets where_clause forallb fst snd].
  cbn [expr_ok cond_ok]. rewrite Hi, Hj.
  reflexivity.
Qed.

Lemma config_update_selected (r : row) :
  selected cols (where_clause st) r
  = bool_decide (cell_at i r = Some table_name).
Proof.
  cbn [st config_update where_clause selected cond_holds eval_expr].
  rewrite Hi. destruct (cell_at i r) as [x|].
  - apply eqb_bool_decide.
  - symmetry. apply bool_decide_eq_false. discriminate.
Qed.

Lemma config_update_sets (r : row) :
  apply_sets cols (sets st) r = <[j := Some latest_timestamp]> r.
Proof.
  cbn [st config_update sets apply_sets fold_left]. unfold assign.
  cbn [fst snd eval_expr]. rewrite Hj. reflexivity.
Qed.

Lemma config_update_row (r : row) :
  update_row cols st r
  = if bool_decide (cell_at i r = Some table_name)
    then <[j := Some latest_timestamp]> r else r.
Proof.
  unfold update_row. rewrite config_update_selected, config_update_sets.
  reflexivity.
Qed.

Lemma config_columns_differ : i <> j.
Proof.
  intros ->. pose proof (col_index_inj _ _ _ _ Hi Hj). discriminate.
Qed.

Lemma config_update_row_idem (r : row) :
  update_row cols st (update_row cols st r) = update_row cols st r.
Proof.
  rewrite !config_update_row.
  destruct (bool_decide (cell_at i r = Some table_name)) eqn:Hsel.
  - rewrite cell_at_insert_ne by apply config_columns_differ.
    rewrite Hsel. apply list_insert_insert_eq.
  - rewrite Hsel. reflexivity.
Qed.

Lemma config_update_rows_unselected (rs : list row) :
  List.filter (fun r => bool_decide (cell_at i r = Some table_name)) rs = [] ->
  List.map (update_row cols st) rs = rs
  /\ List.filter (selected cols (where_clause st)) rs = [].
Proof.
  induction rs as [|r rs IH]; intros Hnone; [split; reflexivity|].
  cbn [List.filter] in Hnone.
  destruct (bool_decide (cell_at i r = Some table_name)) eqn:Hsel;
    [discriminate|].
  destruct (IH Hnone) as [Hmap Hfil].
  cbn [List.map List.filter].
  rewrite config_update_row, config_update_selected, Hsel, Hmap, Hfil.
  split; reflexivity.
Qed.

End ConfigUpdate.

Lemma stmt_ok_config_update (cols : list string) (table_name latest_timestamp : string) :
  stmt_ok cols (config_update table_name latest_timestamp) = true ->
  exists i j, col_index "TABLE_NAME" cols = Some i
              /\ col_index "SILVER_LAST_UPDATE" cols = Some j.
Proof.
  unfold stmt_ok, config_update. cbn [sets where_clause forallb fst snd expr_ok cond_ok].
  intros Hok.
  destruct (col_index "TABLE_NAME" cols) as [i|];
    destruct (col_index "SILVER_LAST_UPDATE" cols) as [j|];
    try (exfalso; vm_compute in Hok; discriminate).
  eauto.
Qed.

(** Running the statement of [update_config] on the store it produced
    changes nothing more, whatever the outcome of the first run. *)
Lemma exec_config_update_idem (table_name latest_timestamp : string) (s : Session) :
  let st := config_update table_name latest_timestamp in
  (exec_update st (exec_update st s).2).2 = (exec_update st s).2
  /\ ((exec_update st s).1 = (exec_update st (exec_update st s).2).1
      \/ exists n m, (exec_update st s).1 = inr n
                     /\ (exec_update st (exec_update st s).2).1 = inr m).
Proof.
  intros st. unfold exec_update.
  change (target st) with CONFIG_TABLE.
  destruct (s !! CONFIG_TABLE) as [t|] eqn:Hcfg; cbn [fst snd].
  2:{ rewrite Hcfg. cbn. auto. }
  destruct (stmt_ok (columns t) st) eqn:Hok; cbn [fst snd].
  2:{ rewrite Hcfg, Hok. cbn. auto. }
  rewrite lookup_insert_eq. cbn [columns rows]. rewrite Hok. cbn [fst snd].
  destruct (stmt_ok_config_update _ _ _ Hok) as (i & j & Hi & Hj).
  split; [|right; eauto].
  rewrite insert_insert_eq. f_equal. f_equal.
  rewrite List.map_map. apply List.map_ext. intros r.
  apply (config_update_row_idem _ _ _ i j Hi Hj).
Qed.

Lemma update_config_exec (table_name latest_timestamp : string)
    (st : update_stmt) (s : Session) :
  sql_collect (update_text table_name latest_timestamp) = exec_update st ->
  update_config table_name latest_timestamp s
  = match exec_update st s with
    | (inl e, s') =>
        (inl (Exn ConfigError
                ("Failed to update configuration for " +:+ table_name
                   +:+ ": " +:+ exn_msg e) (Some e)), s')
    | (inr _, s') => (inr tt, s')
    end.
Proof.
  intros Hsql. unfold update_config, try_except, bind. rewrite Hsql.
  destruct (exec_update st s) as [[e|n] s']; reflexivity.
Qed.

Lemma exec_config_update_no_record (table_name latest_timestamp : string)
    (s : Session) cfg i j :
  config_store s cfg i j ->
  matching_records cfg i table_name = [] ->
  exec_update (config_update table_name latest_timestamp) s = (inr 0%Z, s).
Proof.
  intros (Hcfg & Hi & Hj) Hnone. unfold exec_update.
  change (target (config_update table_name latest_timestamp)) with CONFIG_TABLE.
  rewrite Hcfg, (config_update_ok _ _ _ i j Hi Hj).
  destruct (config_update_rows_unselected table_name latest_timestamp
              (columns cfg) i j Hi Hj (rows cfg) Hnone) as [Hmap Hfil].
  rewrite Hmap, Hfil. cbn [length Z.of_nat]. f_equal.
  apply insert_id. rewrite Hcfg. destruct cfg; reflexivity.
Qed.

(** ** Properties of the readers over DataFrames *)

Section FrameProperties.
Context {engine : Collation}.

Lemma holds_gt_exceeds (W : string) (k : nat) (r : row) :
  holds (ColGt TIMESTAMP_FIELD W) k r = exceeds W (cell_at k r).
Proof. unfold holds, exceeds. destruct (cell_at k r); reflexivity. Qed.

Lemma eval_delta_query (s : Session) (table_name W : string) (T : table) k :
  s !! upper table_name = Some T ->
  col_index "CURRENT_TIMESTAMP" (columns T) = Some k ->
  eval (delta_query table_name W) s
  = inr (Table (columns T) (types T) (newer_rows W k T)).
Proof.
  intros HT Hk. unfold delta_query. cbn [eval]. rewrite HT.
  unfold resolve_col. cbn [pred_col].
  change (upper TIMESTAMP_FIELD) with "CURRENT_TIMESTAMP". rewrite Hk.
  reflexivity.
Qed.

Lemma count_present (f : nat -> bool) (l : list nat) :
  (1 <=? length (List.filter (fun i => negb (f i)) l))%nat = negb (forallb f l).
Proof.
  induction l as [|i l IH]; [reflexivity|].
  cbn [List.filter forallb]. destruct (f i); cbn; [exact IH | reflexivity].
Qed.

Lemma keeps_all_missing (t : table) (r : row) :
  keeps HowAll t r = negb (all_missing t r).
Proof.
  unfold keeps, all_missing, non_missing_count.
  destruct (columns t) as [|c cs]; [reflexivity|].
  cbn [length Nat.ltb Nat.leb Nat.eqb orb]. apply count_present.
Qed.

Lemma all_missing_true (t : table) (r : row) :
  all_missing t r = true ->
  forall i, (i < length (columns t))%nat -> missing_at t r i = true.
Proof.
  unfold all_missing. destruct (columns t) as [|c cs] eqn:Hcols; [discriminate|].
  rewrite forallb_forall. intros Hall i Hi. apply Hall.
  apply List.in_seq. lia.
Qed.

Lemma all_missing_false (t : table) (r : row) (i : nat) :
  (i < length (columns t))%nat ->
  missing_at t r i = false ->
  all_missing t r = false.
Proof.
  intros Hi Hpresent. destruct (all_missing t r) eqn:Hall; [|reflexivity].
  rewrite (all_missing_true t r Hall i Hi) in Hpresent. discriminate.
Qed.

End FrameProperties.

(** ** The readers *)

Section ReaderClaims.
Context {engine : Collation}.

(** C1: for every watermark [W] and every stored source table [T] with a
    [current_timestamp] column, [find_delta] returns the count of the rows
    of [T] whose [current_timestamp] strictly exceeds [W]; the view it
    returns holds exactly those rows, and a row whose [current_timestamp]
    equals [W] is not among them. *)
Theorem find_delta_counts_newer (s : Session) (table_name W : string)
    (T : table) (k : nat) :
  s !! upper table_name = Some T ->
  col_index "CURRENT_TIMESTAMP" (columns T) = Some k ->
  find_delta table_name W s
  = (inr (delta_query table_name W, Z.of_nat (length (newer_rows W k T))), s)
  /\ eval (delta_query table_name W) s
     = inr (Table (columns T) (types T) (newer_rows W k T))
  /\ (forall r, In r (rows T) -> cell_at k r = Some W -> ~ In r (newer_rows W k T)).
Proof.
  intros HT Hk.
  pose proof (eval_delta_query s table_name W T k HT Hk) as Heval.
  split; [|split].
  - unfold find_delta, try_except, bind, count, lift_result.
    rewrite Heval. reflexivity.
  - exact Heval.
  - intros r _ HW Hin. unfold newer_rows in Hin.
    apply List.filter_In in Hin as [_ Hgt].
    rewrite HW in Hgt. cbn [exceeds] in Hgt.
    rewrite cell_gt_irrefl in Hgt. discriminate.
Qed.

(** C2 (as amended): on a DataFrame that evaluates to zero rows,
    [find_latest_timestamp] raises no error when the [current_timestamp]
    column is there: the aggregation yields one row holding NULL and that
    NULL ([None]) is returned.  It raises a [DataError] when the column
    is missing. *)
Theorem find_latest_timestamp_empty (s : Session) (df : DataFrame) (t : table) :
  eval df s = inr t ->
  rows t = [] ->
  (forall k, col_index "CURRENT_TIMESTAMP" (columns t) = Some k ->
             find_latest_timestamp df s = (inr None, s))
  /\ (col_index "CURRENT_TIMESTAMP" (columns t) = None ->
      exists e, find_latest_timestamp df s = (inl e, s)
                /\ exn_cls e = DataError).
Proof.
  intros Heval Hrows.
  unfold find_latest_timestamp, try_except, bind, collect, lift_result.
  cbn [eval]. rewrite Heval. unfold resolve_col.
  change (upper TIMESTAMP_FIELD) with "CURRENT_TIMESTAMP".
  split.
  - intros k Hk. rewrite Hk, Hrows. reflexivity.
  - intros Hk. rewrite Hk. eexists. split; reflexivity.
Qed.

(** C3: when no Configuration Record matches the table name, or when the
    lookup itself fails in the engine, [find_last_update_date] returns no
    value: it raises a [ConfigError], and an engine failure is kept as the
    cause of that error. *)
Theorem find_last_update_date_fails (s : Session) (table_name : string) :
  (exists cfg i j, config_store s cfg i j
                   /\ matching_records cfg i table_name = [])
  \/ (exists e0, eval (config_query table_name) s = inl e0) ->
  exists e,
    find_last_update_date table_name s = (inl e, s)
    /\ exn_cls e = ConfigError
    /\ (forall e0, eval (config_query table_name) s = inl e0 ->
                   exn_cause e = Some e0).
Proof.
  intros [(cfg & i & j & Hstore & Hnone) | (e0 & Hfail)].
  - eexists. split; [apply (find_last_update_date_no_record s _ cfg i j Hstore Hnone)|].
    split; [reflexivity|].
    intros e0 Hfail. rewrite (eval_config_query s _ cfg i j Hstore) in Hfail.
    discriminate.
  - eexists. split; [apply (find_last_update_date_engine_failure s _ e0 Hfail)|].
    split; [reflexivity|].
    intros e1 Hfail1. rewrite Hfail in Hfail1. injection Hfail1 as ->.
    reflexivity.
Qed.

(** C4: when exactly one Configuration Record matches the table name,
    [find_last_update_date] returns that record's [silver_last_update]
    value and leaves the session store as it was. *)
Theorem find_last_update_date_single (s : Session) (table_name : string)
    (cfg : table) (i j : nat) (r : row) :
  config_store s cfg i j ->
  matching_records cfg i table_name = [r] ->
  find_last_update_date table_name s = (inr (cell_at j r), s).
Proof.
  intros Hstore Hone.
  exact (find_last_update_date_first s table_name cfg i j r [] Hstore Hone).
Qed.

(** C9: when more than one Configuration Record matches the table name,
    [find_last_update_date] does not fail: it returns the
    [silver_last_update] value of the first record of the lookup result
    and ignores the others. *)
Theorem find_last_update_date_many (s : Session) (table_name : string)
    (cfg : table) (i j : nat) (r1 r2 : row) (others : list row) :
  config_store s cfg i j ->
  matching_records cfg i table_name = r1 :: r2 :: others ->
  find_last_update_date table_name s = (inr (cell_at j r1), s).
Proof.
  intros Hstore Hmany.
  exact (find_last_update_date_first s table_name cfg i j r1 (r2 :: others)
           Hstore Hmany).
Qed.

(** C10: when zero records match, the error that reaches the caller is
    the "Failed to retrieve last update date" [ConfigError]; the
    not-found [ConfigError] raised inside is its cause, and the message
    of the not-found error ends the message of the outer one. *)
Theorem find_last_update_date_not_found_wrapped (s : Session)
    (table_name : string) (cfg : table) (i j : nat) :
  config_store s cfg i j ->
  matching_records cfg i table_name = [] ->
  exists inner,
    inner = Exn ConfigError ("No configuration found for table " +:+ table_name) None
    /\ find_last_update_date table_name s
       = (inl (Exn ConfigError
                 ("Failed to retrieve last update date for " +:+ table_name
                    +:+ ": " +:+ exn_msg inner) (Some inner)), s).
Proof.
  intros Hstore Hnone. eexists. split; [reflexivity|].
  exact (find_last_update_date_no_record s table_name cfg i j Hstore Hnone).
Qed.

(** C7 (as amended): for every input that evaluates to a result set,
    [remove_null_rows] returns the [dropna] view and the difference of
    the two row counts; every row the view drops is missing in every
    column, where missing means NULL, or NaN in a FLOAT or DOUBLE column,
    and no row with a column that is not missing is dropped. *)
Theorem remove_null_rows_removes_missing (s : Session) (df : DataFrame)
    (t : table) :
  eval df s = inr t ->
  exists removed : Z,
    remove_null_rows df s = (inr (DfDropna HowAll df, removed), s)
    /\ eval (DfDropna HowAll df) s
       = inr (Table (columns t) (types t) (kept_rows t))
    /\ removed = (Z.of_nat (length (rows t)) - Z.of_nat (length (kept_rows t)))%Z
    /\ (forall r, In r (rows t) -> ~ In r (kept_rows t) ->
         forall i, (i < length (columns t))%nat ->
           is_missing (col_type (types t) i) (cell_at i r) = true)
    /\ (forall r i, In r (rows t) -> (i < length (columns t))%nat ->
         is_missing (col_type (types t) i) (cell_at i r) = false ->
         In r (kept_rows t)).
Proof.
  intros Heval.
  assert (Hclean : eval (DfDropna HowAll df) s
                   = inr (Table (columns t) (types t) (kept_rows t))).
  { cbn [eval]. rewrite Heval. f_equal. f_equal.
    apply List.filter_ext. intros r. apply keeps_all_missing. }
  eexists. split; [|split; [exact Hclean|split; [reflexivity|split]]].
  - unfold remove_null_rows, try_except, bind, count, dropna, lift_result.
    rewrite Heval, Hclean. reflexivity.
  - intros r Hin Hout i Hi.
    destruct (all_missing t r) eqn:Hall.
    + exact (all_missing_true t r Hall i Hi).
    + exfalso. apply Hout. unfold kept_rows. apply List.filter_In.
      rewrite Hall. split; [exact Hin | reflexivity].
  - intros r i Hin Hi Hpresent. unfold kept_rows. apply List.filter_In.
    split; [exact Hin|].
    rewrite (all_missing_false t r i Hi Hpresent). reflexivity.
Qed.

End ReaderClaims.

(** ** The writer *)

(** C5 (as amended): when neither the table name nor the timestamp holds
    a quote or a backslash, running [update_config] a second time with the
    same arguments gives the outcome and the store of the first run. *)
Theorem update_config_idempotent (s : Session)
    (table_name latest_timestamp : string) :
  sql_safe table_name = true ->
  sql_safe latest_timestamp = true ->
  update_config table_name latest_timestamp
    (update_config table_name latest_timestamp s).2
  = update_config table_name latest_timestamp s.
Proof.
  intros Hname Hts.
  pose proof (sql_collect_update_text _ _ Hname Hts) as Hsql.
  rewrite !(update_config_exec _ _ _ _ Hsql).
  destruct (exec_config_update_idem table_name latest_timestamp s) as [Hst Hres].
  cbv zeta in Hst, Hres.
  destruct (exec_update (config_update table_name latest_timestamp) s)
    as [[e|n] s1]; cbn [fst snd] in *;
    destruct (exec_update (config_update table_name latest_timestamp) s1)
      as [[e'|m] s2]; cbn [fst snd] in *; subst s2;
    destruct Hres as [Hsame | (n0 & m0 & Hfst & Hsnd)];
    try discriminate; try reflexivity.
  injection Hsame as ->. reflexivity.
Qed.

(** C6 (as amended): when neither the table name nor the timestamp holds
    a quote or a backslash and no Configuration Record matches the table
    name, the statement updates zero rows and [update_config] returns
    normally with the store unchanged; whenever [update_config] raises,
    the error is a [ConfigError] whose cause is the failure of the
    statement. *)
Theorem update_config_no_record (s : Session)
    (table_name latest_timestamp : string) :
  (forall cfg i j,
     sql_safe table_name = true ->
     sql_safe latest_timestamp = true ->
     config_store s cfg i j ->
     matching_records cfg i table_name = [] ->
     sql_collect (update_text table_name latest_timestamp) s = (inr 0%Z, s)
     /\ update_config table_name latest_timestamp s = (inr tt, s))
  /\ (forall e,
        (update_config table_name latest_timestamp s).1 = inl e ->
        exists e0,
          (sql_collect (update_text table_name latest_timestamp) s).1 = inl e0
          /\ e = Exn ConfigError
                   ("Failed to update configuration for " +:+ table_name
                      +:+ ": " +:+ exn_msg e0) (Some e0)).
Proof.
  split.
  - intros cfg i j Hname Hts Hstore Hnone.
    rewrite (sql_collect_update_text _ _ Hname Hts).
    rewrite (update_config_exec _ _ _ _ (sql_collect_update_text _ _ Hname Hts)).
    rewrite (exec_config_update_no_record _ _ s cfg i j Hstore Hnone).
    split; reflexivity.
  - intros e. unfold update_config, try_except, bind, raise, ret.
    destruct (sql_collect _ s) as [[e0|n] s']; cbn [fst snd]; intros Hraise.
    + exists e0. split; [reflexivity|]. injection Hraise as <-. reflexivity.
    + discriminate.
Qed.

(** ** The type classifier *)

(** C8: [is_simple_type] is a total function on type descriptors; it is
    false exactly on the mapping, array and nested-record descriptors and
    true on every other one. *)
Theorem is_simple_type_spec (d : DataType) :
  (is_simple_type d = false <-> nested_kind d)
  /\ (is_simple_type d = true <-> ~ nested_kind d).
Proof.
  unfold nested_kind.
  destruct d; cbn; (split; split);
    try discriminate; try reflexivity;
    try (intros _; eauto 6; fail);
    try (intros _ [(? & ? & ?)|[(? & ?)|(? & ?)]]; discriminate);
    try (intros [(? & ? & ?)|[(? & ?)|(? & ?)]]; discriminate);
    try (intros Hno; exfalso; apply Hno; eauto 6).
Qed.

(** ** Instances on the sample data *)

Lemma find_delta_counts_newer_witness :
  (find_delta (engine := binary_collation) "orders" "2024-01-01T00:00:00"
     sample_session).1
  = inr (delta_query "orders" "2024-01-01T00:00:00", 3%Z).
Proof.
  destruct (find_delta_counts_newer (engine := binary_collation)
              sample_session "orders" "2024-01-01T00:00:00" sample_orders 1)
    as [Hrun _].
  - vm_compute. reflexivity.
  - reflexivity.
  - rewrite Hrun. vm_compute. reflexivity.
Defined.

Lemma find_latest_timestamp_empty_witness :
  find_latest_timestamp (engine := binary_collation)
    (delta_query "orders" "2024-01-03") sample_session
  = (inr None, sample_session).
Proof.
  apply (proj1 (find_latest_timestamp_empty (engine := binary_collation)
                  sample_session (delta_query "orders" "2024-01-03")
                  (Table ["ID"; "CURRENT_TIMESTAMP"] [IntegerType; TimestampType] [])
                  eq_refl eq_refl) 1%nat).
  reflexivity.
Defined.

Lemma sample_config_store : config_store sample_session sample_config 0 1.
Proof. repeat split; vm_compute; reflexivity. Defined.

Lemma find_last_update_date_fails_witness :
  exists e,
    find_last_update_date (engine := binary_collation) "CUSTOMERS" sample_session
    = (inl e, sample_session)
    /\ exn_cls e = ConfigError.
Proof.
  destruct (find_last_update_date_fails (engine := binary_collation)
              sample_session "CUSTOMERS") as (e & Hrun & Hcls & _).
  - left. exists sample_config, 0%nat, 1%nat.
    split; [exact sample_config_store | vm_compute; reflexivity].
  - exists e. split; assumption.
Defined.

Lemma find_last_update_date_single_witness :
  find_last_update_date (engine := binary_collation) "ORDERS" sample_session
  = (inr (Some "2024-01-01T00:00:00"), sample_session).
Proof.
  apply (find_last_update_date_single (engine := binary_collation)
           sample_session "ORDERS" sample_config 0 1
           [Some "ORDERS"; Some "2024-01-01T00:00:00"]).
  - exact sample_config_store.
  - vm_compute. reflexivity.
Defined.

Lemma find_last_update_date_many_witness :
  find_last_update_date (engine := binary_collation) "DUP" sample_session
  = (inr (Some "2022-02-02T00:00:00"), sample_session).
Proof.
  apply (find_last_update_date_many (engine := binary_collation)
           sample_session "DUP" sample_config 0 1
           [Some "DUP"; Some "2022-02-02T00:00:00"]
           [Some "DUP"; Some "2021-01-01T00:00:00"] []).
  - exact sample_config_store.
  - vm_compute. reflexivity.
Defined.

Lemma find_last_update_date_not_found_wrapped_witness :
  exists inner,
    inner = Exn ConfigError "No configuration found for table CUSTOMERS" None
    /\ find_last_update_date (engine := binary_collation) "CUSTOMERS" sample_session
       = (inl (Exn ConfigError
                 "Failed to retrieve last update date for CUSTOMERS: No configuration found for table CUSTOMERS"
                 (Some inner)), sample_session).
Proof.
  destruct (find_last_update_date_not_found_wrapped (engine := binary_collation)
              sample_session "CUSTOMERS" sample_config 0 1)
    as (inner & Hinner & Hrun).
  - exact sample_config_store.
  - vm_compute. reflexivity.
  - exists inner. split; [exact Hinner|]. rewrite Hrun, Hinner. reflexivity.
Defined.

Lemma remove_null_rows_removes_missing_witness :
  exists removed : Z,
    remove_null_rows (engine := binary_collation) (DfTable "orders") sample_session
    = (inr (DfDropna HowAll (DfTable "orders"), removed), sample_session)
    /\ removed = 1%Z.
Proof.
  destruct (remove_null_rows_removes_missing (engine := binary_collation)
              sample_session (DfTable "orders") sample_orders)
    as (removed & Hrun & _ & Hcount & _).
  - vm_compute. reflexivity.
  - exists removed. split; [exact Hrun|]. rewrite Hcount. reflexivity.
Defined.

Lemma update_config_idempotent_witness :
  update_config "ORDERS" "2024-01-03"
    (update_config "ORDERS" "2024-01-03" sample_session).2
  = update_config "ORDERS" "2024-01-03" sample_session.
Proof.
  apply (update_config_idempotent sample_session "ORDERS" "2024-01-03");
    reflexivity.
Defined.

Lemma update_config_no_record_witness :
  sql_collect (update_text "CUSTOMERS" "2024-01-03") sample_session
  = (inr 0%Z, sample_session)
  /\ update_config "CUSTOMERS" "2024-01-03" sample_session
     = (inr tt, sample_session).
Proof.
  apply (proj1 (update_config_no_record sample_session "CUSTOMERS" "2024-01-03")
           sample_config 0%nat 1%nat).
  - reflexivity.
  - reflexivity.
  - exact sample_config_store.
  - vm_compute. reflexivity.
Defined.

(** The scenario of the ORDERS table, end to end: the watermark is
    read, three rows are newer, the latest timestamp among them is
    written back. *)
Example orders_scenario :
  (find_last_update_date (engine := binary_collation) "ORDERS" sample_session).1
  = inr (Some "2024-01-01T00:00:00")
  /\ (find_delta (engine := binary_collation) "ORDERS" "2024-01-01T00:00:00"
        sample_session).1
     = inr (delta_query "ORDERS" "2024-01-01T00:00:00", 3%Z)
  /\ (find_latest_timestamp (engine := binary_collation)
        (delta_query "ORDERS" "2024-01-01T00:00:00") sample_session).1
     = inr (Some "2024-01-03")
  /\ (find_last_update_date (engine := binary_collation) "ORDERS"
        (update_config "ORDERS" "2024-01-03" sample_session).2).1
     = inr (Some "2024-01-03").
Proof. repeat split; vm_compute; reflexivity. Qed.

(** ** Inputs on which the stated behaviour does not hold *)

(** An empty table with the [current_timestamp] column: the maximum is
    NULL and is returned as such; nothing is raised. *)
Lemma find_latest_timestamp_empty_returns_null :
  eval (engine := binary_collation) (DfTable "EMPTY") sample_session
  = inr sample_empty
  /\ rows sample_empty = []
  /\ find_latest_timestamp (engine := binary_collation) (DfTable "EMPTY")
       sample_session
     = (inr None, sample_session).
Proof. repeat split; vm_compute; reflexivity. Qed.


(** A timestamp value that closes the string constant and refers to the
    column itself: every run appends to the stored value, so the second
    run does not leave the record as the first run left it. *)
Lemma update_config_injected_value_accumulates :
  (update_config "ORDERS" "' || silver_last_update || 'x"
     (update_config "ORDERS" "' || silver_last_update || 'x" sample_session).2).2
  <> (update_config "ORDERS" "' || silver_last_update || 'x" sample_session).2.
Proof.
  intros Heq. apply (f_equal (fun m : Session => m !! CONFIG_TABLE)) in Heq.
  vm_compute in Heq. discriminate.
Qed.

(** A table name that closes the string constant and compares the
    column with itself: no Configuration Record bears that name, yet the
    statement runs, selects every record and overwrites them all. *)
Lemma update_config_injected_name_updates_all :
  config_store sample_session sample_config 0 1
  /\ matching_records sample_config 0 "' || table_name || '" = []
  /\ (sql_collect (update_text "' || table_name || '" "2024-01-03")
        sample_session).1 = inr 5%Z
  /\ (update_config "' || table_name || '" "2024-01-03" sample_session).1
     = inr tt
  /\ (update_config "' || table_name || '" "2024-01-03" sample_session).2
       !! CONFIG_TABLE
     = Some (Table ["TABLE_NAME"; "SILVER_LAST_UPDATE"] [StringType; StringType]
               [[Some "ORDERS"; Some "2024-01-03"];
                [Some "ITEMS"; Some "2024-01-03"];
                [Some "DUP"; Some "2024-01-03"];
                [Some "DUP"; Some "2024-01-03"];
                [Some "LOG\RAW"; Some "2024-01-03"]]).
Proof.
  split; [exact sample_config_store|]. repeat split; vm_compute; reflexivity.
Qed.

(** A table name with a quote in it: the statement text is malformed
    and [update_config] raises. *)
Example update_config_quoted_name_fails :
  update_config "a'b" "2024-01-03" sample_session
  = (inl (Exn ConfigError
            "Failed to update configuration for a'b: SQL compilation error: syntax error"
            (Some (sql_error "SQL compilation error: syntax error"))),
     sample_session).
Proof. vm_compute. reflexivity. Qed.

(** A table name with an escaped backslash and no Configuration Record
    of that name: the constant denotes the name with one backslash, whose
    record is overwritten. *)
Example update_config_backslash_name_hits_other :
  matching_records sample_config 0 "LOG\\RAW" = []
  /\ (update_config "LOG\\RAW" "2024-01-03" sample_session).1 = inr tt
  /\ (find_last_update_date (engine := binary_collation) "LOG\RAW"
        (update_config "LOG\\RAW" "2024-01-03" sample_session).2).1
     = inr (Some "2024-01-03").
Proof. repeat split; vm_compute; reflexivity. Qed.

(** ** The latest timestamp *)

Section LatestTimestamp.
Context {engine : Collation}.

Lemma fold_max_snoc (l : list cell) (acc c : cell) :
  fold_left max_cell (l ++ [c]) acc = max_cell (fold_left max_cell l acc) c.
Proof. rewrite List.fold_left_app. reflexivity. Qed.

(** The maximum is NULL when every value is, and one of the values
    otherwise. *)
Lemma fold_max_member (l : list cell) :
  (fold_left max_cell l None = None /\ forall c, In c l -> c = None)
  \/ (exists v, fold_left max_cell l None = Some v /\ In (Some v) l).
Proof.
  induction l as [|c l IH] using List.rev_ind.
  - left. split; [reflexivity | intros c []].
  - rewrite fold_max_snoc.
    destruct IH as [[Hnone Hall] | (v & Hsome & Hin)].
    + rewrite Hnone. cbn [max_cell]. destruct c as [x|].
      * right. exists x. split; [reflexivity|].
        apply List.in_or_app. right. left. reflexivity.
      * left. split; [reflexivity|].
        intros c Hc. apply List.in_app_or in Hc as [Hc | [<- | []]];
          [exact (Hall c Hc) | reflexivity].
    + rewrite Hsome. right. destruct c as [x|]; cbn [max_cell].
      * destruct (cell_gt x v).
        -- exists x. split; [reflexivity|].
           apply List.in_or_app. right. left. reflexivity.
        -- exists v. split; [reflexivity|].
           apply List.in_or_app. left. exact Hin.
      * exists v. split; [reflexivity|].
        apply List.in_or_app. left. exact Hin.
Qed.

(** With a transitive [>], no value exceeds the maximum. *)
Lemma fold_max_bound (l : list cell) :
  gt_transitive ->
  forall v, In (Some v) l ->
    exists w, fold_left max_cell l None = Some w /\ cell_gt v w = false.
Proof.
  intros Htrans. induction l as [|c l IH] using List.rev_ind; intros v Hin.
  - destruct Hin.
  - rewrite fold_max_snoc. apply List.in_app_or in Hin as [Hin | [-> | []]].
    + destruct (IH v Hin) as (w & Hw & Hle). rewrite Hw.
      destruct c as [x|]; cbn [max_cell].
      * destruct (cell_gt x w) eqn:Hxw.
        -- exists x. split; [reflexivity|].
           destruct (cell_gt v x) eqn:Hvx; [|reflexivity].
           rewrite (Htrans v x w Hvx Hxw) in Hle. discriminate.
        -- exists w. split; [reflexivity | exact Hle].
      * exists w. split; [reflexivity | exact Hle].
    + destruct (fold_left max_cell l None) as [w|]; cbn [max_cell].
      * destruct (cell_gt v w) eqn:Hvw.
        -- exists v. split; [reflexivity | apply cell_gt_irrefl].
        -- exists w. split; [reflexivity | exact Hvw].
      * exists v. split; [reflexivity | apply cell_gt_irrefl].
Qed.

Lemma find_latest_timestamp_eval (s : Session) (df : DataFrame) (t : table)
    (k : nat) :
  eval df s = inr t ->
  col_index "CURRENT_TIMESTAMP" (columns t) = Some k ->
  find_latest_timestamp df s
  = (inr (fold_left max_cell (column_values k t) None), s).
Proof.
  intros Heval Hk.
  unfold find_latest_timestamp, try_except, bind, collect, lift_result.
  cbn [eval]. rewrite Heval. unfold resolve_col.
  change (upper TIMESTAMP_FIELD) with "CURRENT_TIMESTAMP".
  rewrite Hk. reflexivity.
Qed.

Lemma in_column_values (k : nat) (t : table) (c : cell) :
  In c (column_values k t) <-> exists r, In r (rows t) /\ cell_at k r = c.
Proof.
  unfold column_values. rewrite List.in_map_iff.
  split; intros (r & H1 & H2); exists r; auto.
Qed.

Lemma newer_rows_exceed (W : string) (k : nat) (T : table) (r : row) :
  In r (newer_rows W k T) <-> In r (rows T) /\ exceeds W (cell_at k r) = true.
Proof. unfold newer_rows. apply List.filter_In. Qed.

Lemma filter_nil_iff {A} (f : A -> bool) (l : list A) :
  (forall x, In x l -> f x = false) -> List.filter f l = [].
Proof.
  induction l as [|x l IH]; intros Hall; [reflexivity|].
  cbn [List.filter]. rewrite (Hall x (or_introl eq_refl)).
  apply IH. intros y Hy. apply Hall. right. exact Hy.
Qed.

(** X1: the value [find_latest_timestamp] returns is a value of the
    [current_timestamp] column of some row, and it is NULL exactly when
    that column is NULL in every row. *)
Theorem find_latest_timestamp_is_column_value (s : Session) (df : DataFrame)
    (t : table) (k : nat) :
  eval df s = inr t ->
  col_index "CURRENT_TIMESTAMP" (columns t) = Some k ->
  exists m,
    find_latest_timestamp df s = (inr m, s)
    /\ (m = None <-> forall r, In r (rows t) -> cell_at k r = None)
    /\ (forall v, m = Some v -> exists r, In r (rows t) /\ cell_at k r = Some v).
Proof.
  intros Heval Hk. eexists. split; [apply (find_latest_timestamp_eval s df t k Heval Hk)|].
  destruct (fold_max_member (column_values k t)) as [[Hnone Hall] | (v & Hsome & Hin)].
  - rewrite Hnone. split; [split; [|reflexivity] | discriminate].
    intros _ r Hr. apply Hall. apply in_column_values. eauto.
  - rewrite Hsome. apply in_column_values in Hin as (r & Hr & Hv). split.
    + split; [discriminate|]. intros Hall. rewrite (Hall r Hr) in Hv. discriminate.
    + intros v' [= <-]. eauto.
Qed.

(** X2: when the engine's [>] is transitive, no [current_timestamp] in
    the result set exceeds the value [find_latest_timestamp] returns. *)
Theorem find_latest_timestamp_upper_bound (s : Session) (df : DataFrame)
    (t : table) (k : nat) (r : row) (v : string) :
  gt_transitive ->
  eval df s = inr t ->
  col_index "CURRENT_TIMESTAMP" (columns t) = Some k ->
  In r (rows t) ->
  cell_at k r = Some v ->
  exists w, find_latest_timestamp df s = (inr (Some w), s)
            /\ cell_gt v w = false.
Proof.
  intros Htrans Heval Hk Hr Hv.
  rewrite (find_latest_timestamp_eval s df t k Heval Hk).
  destruct (fold_max_bound (column_values k t) Htrans v) as (w & Hw & Hle).
  { apply in_column_values. eauto. }
  exists w. rewrite Hw. split; [reflexivity | exact Hle].
Qed.

(** X3: on a delta that is not empty, [find_latest_timestamp] returns a
    timestamp that strictly exceeds the watermark the delta was taken
    from: the checkpoint moves forward. *)
Theorem latest_of_delta_exceeds_watermark (s : Session) (table_name W : string)
    (T : table) (k : nat) :
  s !! upper table_name = Some T ->
  col_index "CURRENT_TIMESTAMP" (columns T) = Some k ->
  newer_rows W k T <> [] ->
  exists L, find_latest_timestamp (delta_query table_name W) s = (inr (Some L), s)
            /\ cell_gt L W = true.
Proof.
  intros HT Hk Hne.
  pose proof (eval_delta_query s table_name W T k HT Hk) as Heval.
  rewrite (find_latest_timestamp_eval s _ _ k Heval Hk).
  destruct (fold_max_member
              (column_values k (Table (columns T) (types T) (newer_rows W k T))))
    as [[_ Hall] | (v & Hsome & Hin)].
  - exfalso. destruct (newer_rows W k T) as [|r rs] eqn:Hrows; [congruence|].
    assert (Hr : In r (newer_rows W k T)) by (rewrite Hrows; left; reflexivity).
    apply newer_rows_exceed in Hr as [_ Hgt].
    rewrite (Hall (cell_at k r)) in Hgt; [discriminate|].
    apply in_column_values. exists r. cbn [rows]. split; [left|]; reflexivity.
  - exists v. split; [rewrite Hsome; reflexivity|].
    apply in_column_values in Hin as (r & Hr & Hv). cbn [rows] in Hr.
    apply newer_rows_exceed in Hr as [_ Hgt]. rewrite Hv in Hgt. exact Hgt.
Qed.

(** X4: when the engine's [>] is transitive and [L] is the latest
    timestamp of the delta taken from watermark [W], the delta taken
    from [L] on the same store is empty: nothing is fetched twice. *)
Theorem delta_from_latest_is_empty (s : Session) (table_name W L : string)
    (T : table) (k : nat) :
  gt_transitive ->
  s !! upper table_name = Some T ->
  col_index "CURRENT_TIMESTAMP" (columns T) = Some k ->
  find_latest_timestamp (delta_query table_name W) s = (inr (Some L), s) ->
  find_delta table_name L s = (inr (delta_query table_name L, 0%Z), s).
Proof.
  intros Htrans HT Hk Hlatest.
  pose proof (eval_delta_query s table_name W T k HT Hk) as HevalW.
  rewrite (find_latest_timestamp_eval s _ _ k HevalW Hk) in Hlatest.
  injection Hlatest as Hmax.
  set (delta := Table (columns T) (types T) (newer_rows W k T)) in *.
  assert (HLW : cell_gt L W = true).
  { destruct (fold_max_member (column_values k delta)) as [[Hn _] | (v & Hsome & Hin)];
      [congruence|].
    assert (v = L) as -> by congruence.
    apply in_column_values in Hin as (r & Hr & Hv). cbn [delta rows] in Hr.
    apply newer_rows_exceed in Hr as [_ Hgt]. rewrite Hv in Hgt. exact Hgt. }
  assert (Hempty : newer_rows L k T = []).
  { apply filter_nil_iff. intros r Hr.
    destruct (cell_at k r) as [v|] eqn:Hv; [|reflexivity]. cbn [exceeds].
    destruct (cell_gt v L) eqn:HvL; [|reflexivity]. exfalso.
    pose proof (Htrans v L W HvL HLW) as HvW.
    destruct (fold_max_bound (column_values k delta) Htrans v) as (w & Hw & Hle).
    { apply in_column_values. exists r. split; [|exact Hv].
      cbn [delta rows]. apply newer_rows_exceed. split; [exact Hr|].
      rewrite Hv. exact HvW. }
    assert (w = L) as -> by congruence. congruence. }
  unfold find_delta, try_except, bind, count, lift_result.
  rewrite (eval_delta_query s table_name L T k HT Hk), Hempty. reflexivity.
Qed.

End LatestTimestamp.

(** ** The writer on arbitrary text *)

Lemma lex_update_text_tokens (table_name latest_timestamp : string)
    (toks : list token) :
  lex (update_text table_name latest_timestamp) = Some toks ->
  exists rest,
    toks = TId "UPDATE" :: TId "UTILS.CONFIG.DEV_CONFIG_TABLES" :: TId "SET"
             :: TId "SILVER_LAST_UPDATE" :: TEq :: rest.
Proof.
  unfold lex. rewrite update_text_split, lex_run_app, lex_run_prefix.
  cbv beta iota.
  destruct (lex_run (LStr "") _) as [[o st]|]; cbn; [|discriminate].
  destruct (finish st) as [last|]; cbn; [|discriminate].
  intros [= <-]. eexists. reflexivity.
Qed.

Lemma parse_update_target (rest : list token) (st : update_stmt) :
  parse (TId "UPDATE" :: TId "UTILS.CONFIG.DEV_CONFIG_TABLES" :: TId "SET" :: rest)
  = Some st ->
  target st = CONFIG_TABLE.
Proof.
  unfold parse.
  change (String.eqb "UPDATE" "UPDATE"
          && negb (is_keyword "UTILS.CONFIG.DEV_CONFIG_TABLES")
          && String.eqb "SET" "SET") with true.
  cbv beta iota.
  destruct (break (is_kw "WHERE") rest) as [set_ts where_ts].
  destruct (mapM parse_assignment (split_on is_comma set_ts)) as [assignments|];
    cbn; [|discriminate].
  destruct where_ts as [wts|]; cbn.
  - destruct (parse_cond wts); cbn; [|discriminate]. intros [= <-]. reflexivity.
  - intros [= <-]. reflexivity.
Qed.

(** Whatever the two values are, the text is rejected or it is an UPDATE
    of the configuration table. *)
Lemma sql_collect_update_cases (table_name latest_timestamp : string) :
  sql_collect (update_text table_name latest_timestamp)
  = raise (sql_error "SQL compilation error: syntax error")
  \/ exists st, target st = CONFIG_TABLE
                /\ sql_collect (update_text table_name latest_timestamp)
                   = exec_update st.
Proof.
  unfold sql_collect.
  destruct (lex (update_text table_name latest_timestamp)) as [toks|] eqn:Hlex;
    [|left; reflexivity].
  destruct (lex_update_text_tokens _ _ _ Hlex) as [rest ->].
  destruct (parse _) as [st|] eqn:Hparse; [|left; reflexivity].
  right. exists st. split; [|reflexivity].
  exact (parse_update_target _ _ Hparse).
Qed.

Lemma update_config_outcome (table_name latest_timestamp : string) (s : Session) :
  update_config table_name latest_timestamp s
  = match sql_collect (update_text table_name latest_timestamp) s with
    | (inl e, s') =>
        (inl (Exn ConfigError
                ("Failed to update configuration for " +:+ table_name
                   +:+ ": " +:+ exn_msg e) (Some e)), s')
    | (inr _, s') => (inr tt, s')
    end.
Proof.
  unfold update_config, try_except, bind.
  destruct (sql_collect _ s) as [[e|n] s']; reflexivity.
Qed.

Lemma exec_update_failure (st : update_stmt) (s s' : Session) (e : exn) :
  exec_update st s = (inl e, s') -> s' = s.
Proof.
  unfold exec_update. destruct (s !! target st) as [t|]; [|congruence].
  destruct (stmt_ok (columns t) st); congruence.
Qed.

Lemma exec_update_success (st : update_stmt) (s s' : Session) (n : Z) :
  exec_update st s = (inr n, s') ->
  exists t, s !! target st = Some t
            /\ s' = <[target st := Table (columns t) (types t)
                                     (List.map (update_row (columns t) st) (rows t))]> s.
Proof.
  unfold exec_update. destruct (s !! target st) as [t|]; [|discriminate].
  destruct (stmt_ok (columns t) st); [|discriminate].
  intros [= _ <-]. eauto.
Qed.

Lemma assign_length (cols : list string) (old acc : row) (a : string * expr) :
  length (assign cols old acc a) = length acc.
Proof.
  unfold assign. destruct (col_index a.1 cols); [apply length_insert | reflexivity].
Qed.

Lemma apply_sets_length (cols : list string) (assignments : list (string * expr))
    (r : row) :
  length (apply_sets cols assignments r) = length r.
Proof.
  unfold apply_sets.
  assert (Hfold : forall acc, length (fold_left (assign cols r) assignments acc)
                              = length acc).
  { induction assignments as [|a l IH]; intros acc; [reflexivity|].
    cbn [fold_left]. rewrite IH. apply assign_length. }
  apply Hfold.
Qed.

Lemma update_row_length (cols : list string) (st : update_stmt) (r : row) :
  length (update_row cols st r) = length r.
Proof.
  unfold update_row. destruct (selected _ _ r); [apply apply_sets_length | reflexivity].
Qed.

(** X5: whatever the table name and the timestamp are, [update_config]
    changes no table other than the configuration table, and it neither
    creates that table nor changes its columns, its number of rows or the
    shape of its rows. *)
Theorem update_config_touches_only_config (table_name latest_timestamp : string)
    (s : Session) :
  (forall k, k <> CONFIG_TABLE ->
             (update_config table_name latest_timestamp s).2 !! k = s !! k)
  /\ match s !! CONFIG_TABLE with
     | None => (update_config table_name latest_timestamp s).2 !! CONFIG_TABLE = None
     | Some cfg =>
         exists cfg',
           (update_config table_name latest_timestamp s).2 !! CONFIG_TABLE = Some cfg'
           /\ columns cfg' = columns cfg
           /\ length (rows cfg') = length (rows cfg)
           /\ (well_formed cfg -> well_formed cfg')
     end.
Proof.
  rewrite update_config_outcome.
  assert (Hsame : forall cfg, s !! CONFIG_TABLE = Some cfg ->
            exists cfg', s !! CONFIG_TABLE = Some cfg'
              /\ columns cfg' = columns cfg
              /\ length (rows cfg') = length (rows cfg)
              /\ (well_formed cfg -> well_formed cfg')) by (intros cfg Hc; eauto).
  destruct (sql_collect_update_cases table_name latest_timestamp)
    as [-> | (st & Htgt & ->)].
  { cbn. split; [reflexivity|]. destruct (s !! CONFIG_TABLE) eqn:Hc; eauto. }
  destruct (exec_update st s) as [[e|n] s'] eqn:Hexec; cbn [snd].
  - apply exec_update_failure in Hexec as ->.
    split; [reflexivity|]. destruct (s !! CONFIG_TABLE) eqn:Hc; eauto.
  - apply exec_update_success in Hexec as (t & Ht & ->). rewrite Htgt in *.
    split; [intros k Hk; apply lookup_insert_ne; congruence|].
    rewrite Ht, lookup_insert_eq. eexists. split; [reflexivity|].
    cbn [columns rows]. split; [reflexivity|].
    split; [apply List.length_map|].
    unfold well_formed. cbn [columns rows]. rewrite !List.Forall_forall.
    intros Hwf r Hr. apply List.in_map_iff in Hr as (r0 & <- & Hr0).
    rewrite update_row_length. exact (Hwf r0 Hr0).
Qed.

(** X6: whatever the table name and the timestamp are, when
    [update_config] raises, the store is as it was before the call. *)
Theorem update_config_failure_keeps_store (table_name latest_timestamp : string)
    (s : Session) (e : exn) :
  (update_config table_name latest_timestamp s).1 = inl e ->
  (update_config table_name latest_timestamp s).2 = s.
Proof.
  rewrite update_config_outcome.
  destruct (sql_collect_update_cases table_name latest_timestamp)
    as [-> | (st & _ & ->)]; [reflexivity|].
  destruct (exec_update st s) as [[e0|n] s'] eqn:Hexec; cbn [fst snd];
    [|discriminate].
  intros _. exact (exec_update_failure _ _ _ _ Hexec).
Qed.

(** X7: when the session has no configuration table, [update_config]
    raises a [ConfigError], whatever the table name and the timestamp. *)
Theorem update_config_without_config_table (table_name latest_timestamp : string)
    (s : Session) :
  s !! CONFIG_TABLE = None ->
  exists e, update_config table_name latest_timestamp s = (inl e, s)
            /\ exn_cls e = ConfigError.
Proof.
  intros Hnone. rewrite update_config_outcome.
  destruct (sql_collect_update_cases table_name latest_timestamp)
    as [-> | (st & Htgt & ->)].
  - eexists. split; reflexivity.
  - unfold exec_update. rewrite Htgt, Hnone. eexists. split; reflexivity.
Qed.

(** ** The writer and the readers together *)

Lemma col_index_lt (name : string) (cols : list string) (k : nat) :
  col_index name cols = Some k -> (k < length cols)%nat.
Proof.
  revert k. induction cols as [|c cols IH]; intros k Hk; [discriminate|].
  cbn in Hk. destruct (String.eqb c name).
  - injection Hk as <-. cbn. lia.
  - destruct (col_index name cols) as [k'|]; [|discriminate].
    cbn in Hk. injection Hk as <-. specialize (IH k' eq_refl). cbn. lia.
Qed.

Lemma exec_config_update_ok (name ts : string) (s : Session) cfg i j :
  config_store s cfg i j ->
  exists n,
    exec_update (config_update name ts) s
    = (inr n, <[CONFIG_TABLE := Table (columns cfg) (types cfg)
                                  (List.map (set_watermark i j name ts) (rows cfg))]> s).
Proof.
  intros (Hcfg & Hi & Hj). unfold exec_update.
  change (target (config_update name ts)) with CONFIG_TABLE.
  rewrite Hcfg, (config_update_ok _ _ _ i j Hi Hj).
  eexists. f_equal. f_equal. f_equal.
  apply List.map_ext. intros r. apply (config_update_row _ _ _ i j Hi Hj).
Qed.

Lemma set_watermark_key (i j : nat) (name ts : string) (r : row) :
  i <> j -> cell_at i (set_watermark i j name ts r) = cell_at i r.
Proof.
  intros Hne. unfold set_watermark.
  destruct (bool_decide (cell_at i r = Some name)); [|reflexivity].
  apply cell_at_insert_ne. exact Hne.
Qed.

Lemma set_watermark_matches (i j : nat) (name ts other : string) (r : row) :
  i <> j ->
  bool_decide (cell_at i (set_watermark i j name ts r) = Some other)
  = bool_decide (cell_at i r = Some other).
Proof.
  intros Hne. apply bool_decide_ext. rewrite (set_watermark_key _ _ _ _ _ Hne).
  reflexivity.
Qed.

Lemma matching_after_update (i j : nat) (name ts : string) (rs : list row) :
  i <> j ->
  List.filter (fun r => bool_decide (cell_at i r = Some name))
    (List.map (set_watermark i j name ts) rs)
  = List.map (fun r => <[j := Some ts]> r)
      (List.filter (fun r => bool_decide (cell_at i r = Some name)) rs).
Proof.
  intros Hne. induction rs as [|r rs IH]; [reflexivity|].
  cbn [List.map List.filter]. rewrite (set_watermark_matches _ _ _ _ _ _ Hne).
  destruct (bool_decide (cell_at i r = Some name)) eqn:Hsel; [|exact IH].
  cbn [List.map]. rewrite IH. unfold set_watermark. rewrite Hsel. reflexivity.
Qed.

Lemma matching_other_after_update (i j : nat) (name ts other : string)
    (rs : list row) :
  i <> j -> other <> name ->
  List.filter (fun r => bool_decide (cell_at i r = Some other))
    (List.map (set_watermark i j name ts) rs)
  = List.filter (fun r => bool_decide (cell_at i r = Some other)) rs.
Proof.
  intros Hne Hother. induction rs as [|r rs IH]; [reflexivity|].
  cbn [List.map List.filter]. rewrite (set_watermark_matches _ _ _ _ _ _ Hne), IH.
  destruct (bool_decide (cell_at i r = Some other)) eqn:Hsel; [|reflexivity].
  f_equal. unfold set_watermark.
  apply bool_decide_eq_true in Hsel.
  rewrite (bool_decide_eq_false_2 (cell_at i r = Some name)); [reflexivity|].
  rewrite Hsel. congruence.
Qed.

Lemma config_store_after_update (name ts : string) (s : Session) cfg i j :
  config_store s cfg i j ->
  config_store
    (<[CONFIG_TABLE := Table (columns cfg) (types cfg)
                         (List.map (set_watermark i j name ts) (rows cfg))]> s)
    (Table (columns cfg) (types cfg)
       (List.map (set_watermark i j name ts) (rows cfg))) i j.
Proof.
  intros (Hcfg & Hi & Hj). split; [apply lookup_insert_eq|]. split; assumption.
Qed.

Lemma update_config_other_tables (table_name latest_timestamp : string)
    (s : Session) (k : string) :
  k <> CONFIG_TABLE ->
  (update_config table_name latest_timestamp s).2 !! k = s !! k.
Proof.
  intros Hk. rewrite update_config_outcome.
  destruct (sql_collect_update_cases table_name latest_timestamp)
    as [-> | (st & Htgt & ->)]; [reflexivity|].
  destruct (exec_update st s) as [[e|n] s'] eqn:Hexec; cbn [snd].
  - apply exec_update_failure in Hexec as ->. reflexivity.
  - apply exec_update_success in Hexec as (t & Ht & ->). rewrite Htgt.
    apply lookup_insert_ne. congruence.
Qed.

Lemma compare_lt_trans (a b c : string) :
  String.compare a b = Lt -> String.compare b c = Lt -> String.compare a c = Lt.
Proof.
  revert b c. induction a as [|x a IH]; intros [|y b] [|z c] Hab Hbc;
    cbn in *; try discriminate; try reflexivity.
  destruct (Ascii.compare x y) eqn:Hxy; try discriminate.
  - apply Ascii.compare_eq_iff in Hxy as ->.
    destruct (Ascii.compare y z); try discriminate; eauto.
  - destruct (Ascii.compare y z) eqn:Hyz; try discriminate.
    + apply Ascii.compare_eq_iff in Hyz as <-. rewrite Hxy. reflexivity.
    + assert (Hxz : Ascii.compare x z = Lt).
      { unfold Ascii.compare in *. apply N.compare_lt_iff.
        apply N.compare_lt_iff in Hxy. apply N.compare_lt_iff in Hyz.
        exact (N.lt_trans _ _ _ Hxy Hyz). }
      rewrite Hxz. reflexivity.
Qed.

Lemma binary_collation_transitive : gt_transitive (engine := binary_collation).
Proof.
  intros a b c. cbn. unfold String.ltb. intros Hab Hbc.
  destruct (String.compare b a) eqn:Hba; try discriminate.
  destruct (String.compare c b) eqn:Hcb; try discriminate.
  rewrite (compare_lt_trans c b a Hcb Hba). reflexivity.
Qed.

Section WriterAndReaders.
Context {engine : Collation}.

Lemma find_last_update_date_eval_ext (name : string) (s s' : Session) :
  eval (config_query name) s = eval (config_query name) s' ->
  (find_last_update_date name s).1 = (find_last_update_date name s').1.
Proof.
  intros Heq.
  unfold find_last_update_date, try_except, bind, collect, lift_result.
  rewrite Heq. destruct (eval (config_query name) s') as [e|t]; [reflexivity|].
  destruct (rows t) as [|r rs]; [reflexivity|].
  cbn. unfold py_index. destruct (r !! 0%nat); reflexivity.
Qed.

(** X8: write, then read.  With a table name and a timestamp free of
    quotes and backslashes, a well-formed configuration table and at
    least one Configuration Record of that name, [find_last_update_date]
    run after [update_config] returns the timestamp just written. *)
Theorem update_config_then_read (s : Session) (table_name latest_timestamp : string)
    (cfg : table) (i j : nat) :
  sql_safe table_name = true ->
  sql_safe latest_timestamp = true ->
  config_store s cfg i j ->
  well_formed cfg ->
  matching_records cfg i table_name <> [] ->
  find_last_update_date table_name
    (update_config table_name latest_timestamp s).2
  = (inr (Some latest_timestamp), (update_config table_name latest_timestamp s).2).
Proof.
  intros Hname Hts Hstore Hwf Hsome.
  rewrite (update_config_exec _ _ _ _ (sql_collect_update_text _ _ Hname Hts)).
  destruct (exec_config_update_ok table_name latest_timestamp s cfg i j Hstore)
    as [n ->]. cbn [snd].
  pose proof (config_store_after_update table_name latest_timestamp s cfg i j Hstore)
    as Hstore'.
  destruct Hstore as (_ & Hi & Hj).
  pose proof (config_columns_differ _ _ _ Hi Hj) as Hne.
  destruct (matching_records cfg i table_name) as [|r rs] eqn:Hrec; [congruence|].
  rewrite (find_last_update_date_first _ _ _ i j
             (<[j := Some latest_timestamp]> r)
             (List.map (fun r => <[j := Some latest_timestamp]> r) rs) Hstore').
  - f_equal. f_equal. unfold cell_at. rewrite list_lookup_insert_eq; [reflexivity|].
    assert (Hin : In r (rows cfg)).
    { assert (Hr : In r (matching_records cfg i table_name))
        by (rewrite Hrec; left; reflexivity).
      unfold matching_records in Hr. apply List.filter_In in Hr. tauto. }
    unfold well_formed in Hwf. rewrite List.Forall_forall in Hwf.
    rewrite (Hwf r Hin). exact (col_index_lt _ _ _ Hj).
  - unfold matching_records at 1. cbn [rows].
    rewrite (matching_after_update _ _ _ _ _ Hne).
    fold (matching_records cfg i table_name). rewrite Hrec. reflexivity.
Qed.

(** X9: with a table name and a timestamp free of quotes and
    backslashes, [update_config] leaves what [find_last_update_date]
    returns for every other table name as it was. *)
Theorem update_config_keeps_other_watermarks (s : Session)
    (table_name latest_timestamp other : string) :
  sql_safe table_name = true ->
  sql_safe latest_timestamp = true ->
  other <> table_name ->
  (find_last_update_date other (update_config table_name latest_timestamp s).2).1
  = (find_last_update_date other s).1.
Proof.
  intros Hname Hts Hother.
  rewrite (update_config_exec _ _ _ _ (sql_collect_update_text _ _ Hname Hts)).
  destruct (exec_update (config_update table_name latest_timestamp) s)
    as [[e|n] s'] eqn:Hexec; cbn [snd].
  { apply exec_update_failure in Hexec as ->. reflexivity. }
  pose proof Hexec as Hsucc.
  unfold exec_update in Hsucc.
  change (target (config_update table_name latest_timestamp))
    with CONFIG_TABLE in Hsucc.
  destruct (s !! CONFIG_TABLE) as [cfg|] eqn:Hcfg; [|discriminate].
  destruct (stmt_ok (columns cfg) (config_update table_name latest_timestamp))
    eqn:Hok; [|discriminate].
  clear Hsucc.
  destruct (stmt_ok_config_update _ _ _ Hok) as (i & j & Hi & Hj).
  assert (Hstore : config_store s cfg i j) by (split; [|split]; assumption).
  destruct (exec_config_update_ok table_name latest_timestamp s cfg i j Hstore)
    as [n' Hexec'].
  rewrite Hexec' in Hexec. injection Hexec as _ <-.
  apply find_last_update_date_eval_ext.
  rewrite (eval_config_query s other cfg i j Hstore).
  rewrite (eval_config_query _ other _ i j
             (config_store_after_update table_name latest_timestamp s cfg i j Hstore)).
  f_equal. f_equal. f_equal.
  unfold matching_records. cbn [rows].
  apply matching_other_after_update; [|exact Hother].
  exact (config_columns_differ _ _ _ Hi Hj).
Qed.

(** X10: whatever its arguments are, [update_config] leaves what
    [find_delta] returns for a source table other than the configuration
    table as it was. *)
Theorem update_config_keeps_deltas (s : Session)
    (table_name latest_timestamp source W : string) :
  upper source <> CONFIG_TABLE ->
  (find_delta source W (update_config table_name latest_timestamp s).2).1
  = (find_delta source W s).1.
Proof.
  intros Hsrc.
  unfold find_delta, try_except, bind, count, lift_result, delta_query.
  cbn [eval].
  rewrite (update_config_other_tables table_name latest_timestamp s _ Hsrc).
  destruct (s !! upper source) as [T|]; [|reflexivity].
  destruct (resolve_col _ T); reflexivity.
Qed.

End WriterAndReaders.

(** ** The null-row filter and the error classes *)

Section FilterAndErrors.
Context {engine : Collation}.

Lemma remove_null_rows_eval (s : Session) (df : DataFrame) (t : table) :
  eval df s = inr t ->
  eval (DfDropna HowAll df) s = inr (Table (columns t) (types t) (kept_rows t))
  /\ remove_null_rows df s
     = (inr (DfDropna HowAll df,
             (Z.of_nat (length (rows t)) - Z.of_nat (length (kept_rows t)))%Z), s).
Proof.
  intros Heval.
  assert (Hclean : eval (DfDropna HowAll df) s
                   = inr (Table (columns t) (types t) (kept_rows t))).
  { cbn [eval]. rewrite Heval. f_equal. f_equal.
    apply List.filter_ext. intros r. apply keeps_all_missing. }
  split; [exact Hclean|].
  unfold remove_null_rows, try_except, bind, count, dropna, lift_result.
  rewrite Heval, Hclean. reflexivity.
Qed.

Lemma filter_all (A : Type) (f : A -> bool) (l : list A) :
  (forall x, In x l -> f x = true) -> List.filter f l = l.
Proof.
  induction l as [|x l IH]; intros Hall; [reflexivity|].
  cbn [List.filter]. rewrite (Hall x (or_introl eq_refl)). f_equal.
  apply IH. intros y Hy. apply Hall. right. exact Hy.
Qed.

Lemma kept_rows_kept (t : table) :
  kept_rows (Table (columns t) (types t) (kept_rows t)) = kept_rows t.
Proof.
  unfold kept_rows at 1. cbn [rows]. apply filter_all.
  intros r Hr. unfold kept_rows in Hr. apply List.filter_In in Hr as [_ Hr].
  exact Hr.
Qed.

(** A value in a column that is not FLOAT or DOUBLE is not missing. *)
Lemma value_not_missing (t : table) (r : row) (k : nat) (v : string) :
  is_float (col_type (types t) k) = false ->
  cell_at k r = Some v ->
  missing_at t r k = false.
Proof.
  intros Hty Hv. unfold missing_at. rewrite Hv. cbn [is_missing].
  rewrite Hty. reflexivity.
Qed.

(** X11: the count [remove_null_rows] returns lies between zero and the
    row count of its input, and running [remove_null_rows] again on the
    DataFrame it returned removes nothing. *)
Theorem remove_null_rows_again (s : Session) (df : DataFrame) (t : table) :
  eval df s = inr t ->
  exists cleaned removed,
    remove_null_rows df s = (inr (cleaned, removed), s)
    /\ (0 <= removed <= Z.of_nat (length (rows t)))%Z
    /\ remove_null_rows cleaned s = (inr (DfDropna HowAll cleaned, 0%Z), s).
Proof.
  intros Heval.
  destruct (remove_null_rows_eval s df t Heval) as [Hclean Hrun].
  eexists _, _. split; [exact Hrun|]. split.
  - pose proof (List.filter_length_le (fun r => negb (all_missing t r)) (rows t)) as Hle.
    fold (kept_rows t) in Hle. lia.
  - destruct (remove_null_rows_eval s _ _ Hclean) as [_ Hrun2].
    rewrite Hrun2. cbn [rows columns types]. rewrite kept_rows_kept.
    f_equal. f_equal. f_equal. lia.
Qed.

(** X12: when the [current_timestamp] column is not a FLOAT or DOUBLE
    column, [remove_null_rows] removes nothing from a delta: a row that
    passes the watermark filter has a [current_timestamp], so it is not
    missing in every column. *)
Theorem remove_null_rows_of_delta (s : Session) (table_name W : string)
    (T : table) (k : nat) :
  s !! upper table_name = Some T ->
  col_index "CURRENT_TIMESTAMP" (columns T) = Some k ->
  is_float (col_type (types T) k) = false ->
  remove_null_rows (delta_query table_name W) s
  = (inr (DfDropna HowAll (delta_query table_name W), 0%Z), s)
  /\ eval (DfDropna HowAll (delta_query table_name W)) s
     = eval (delta_query table_name W) s.
Proof.
  intros HT Hk Hty.
  pose proof (eval_delta_query s table_name W T k HT Hk) as Heval.
  destruct (remove_null_rows_eval s _ _ Heval) as [Hclean Hrun].
  assert (Hkept : kept_rows (Table (columns T) (types T) (newer_rows W k T))
                  = newer_rows W k T).
  { unfold kept_rows. cbn [rows]. apply filter_all. intros r Hr.
    unfold newer_rows in Hr. apply List.filter_In in Hr as [_ Hgt].
    destruct (cell_at k r) as [v|] eqn:Hv; [|discriminate].
    rewrite (all_missing_false _ r k); [reflexivity | |].
    - cbn [columns]. exact (col_index_lt _ _ _ Hk).
    - apply (value_not_missing _ r k v); [exact Hty | exact Hv]. }
  rewrite Hrun, Hclean, Heval, Hkept. cbn [rows columns types].
  split; [|reflexivity]. f_equal. f_equal. f_equal. lia.
Qed.

(** X13: whatever the session and the table name are,
    [find_last_update_date] leaves the store as it was, and an error it
    raises is a [ConfigError] that carries its cause. *)
Theorem find_last_update_date_raises_config_error (s : Session)
    (table_name : string) :
  (find_last_update_date table_name s).2 = s
  /\ forall e, (find_last_update_date table_name s).1 = inl e ->
               exn_cls e = ConfigError /\ is_Some (exn_cause e).
Proof.
  unfold find_last_update_date, try_except, bind, collect, lift_result.
  destruct (eval (config_query table_name) s) as [e0|t].
  { split; [reflexivity|]. intros e [= <-]. split; [reflexivity | eauto]. }
  destruct (rows t) as [|r rs].
  { split; [reflexivity|]. intros e [= <-]. split; [reflexivity | eauto]. }
  cbn. unfold py_index. destruct (r !! 0%nat) as [c|].
  - split; [reflexivity|]. intros e. discriminate.
  - split; [reflexivity|]. intros e [= <-]. split; [reflexivity | eauto].
Qed.

(** X14: whatever their arguments are, [find_delta],
    [find_latest_timestamp] and [remove_null_rows] leave the store as it
    was, and an error any of them raises is a [DataError] that carries
    its cause. *)
Theorem data_functions_raise_data_error (s : Session) (df : DataFrame)
    (table_name W : string) :
  ((find_delta table_name W s).2 = s
   /\ forall e, (find_delta table_name W s).1 = inl e ->
                exn_cls e = DataError /\ is_Some (exn_cause e))
  /\ ((find_latest_timestamp df s).2 = s
      /\ forall e, (find_latest_timestamp df s).1 = inl e ->
                   exn_cls e = DataError /\ is_Some (exn_cause e))
  /\ ((remove_null_rows df s).2 = s
      /\ forall e, (remove_null_rows df s).1 = inl e ->
                   exn_cls e = DataError /\ is_Some (exn_cause e)).
Proof.
  split; [|split].
  - unfold find_delta, try_except, bind, count, lift_result.
    destruct (eval (delta_query table_name W) s) as [e0|t];
      (split; [reflexivity|]); intros e; [|discriminate].
    intros [= <-]. split; [reflexivity | eauto].
  - unfold find_latest_timestamp, try_except, bind, collect, lift_result.
    destruct (eval (DfAggMax TIMESTAMP_FIELD df) s) as [e0|t].
    { split; [reflexivity|]. intros e [= <-]. split; [reflexivity | eauto]. }
    unfold py_index.
    destruct (rows t !! 0%nat) as [r|]; cbn.
    + destruct (r !! 0%nat) as [c|]; cbn; (split; [reflexivity|]); intros e;
        [discriminate|].
      intros [= <-]. split; [reflexivity | eauto].
    + split; [reflexivity|]. intros e [= <-]. split; [reflexivity | eauto].
  - unfold remove_null_rows, try_except, bind, count, dropna, lift_result.
    destruct (eval df s) as [e0|t] eqn:Heval.
    + split; [reflexivity|]. intros e [= <-]. split; [reflexivity | eauto].
    + cbn [eval]. rewrite Heval. split; [reflexivity|]. intros e. discriminate.
Qed.

(** X15: when the source table does not exist, or exists without a
    [current_timestamp] column, [find_delta] returns no view: it raises a
    [DataError] whose cause is the error it caught and whose message is
    "Failed to find delta records for", the table name and the message of
    that error. *)
Theorem find_delta_missing_table_or_column (s : Session) (table_name W : string) :
  s !! upper table_name = None
  \/ (exists T, s !! upper table_name = Some T
                /\ col_index "CURRENT_TIMESTAMP" (columns T) = None) ->
  exists e0,
    find_delta table_name W s
    = (inl (Exn DataError
              ("Failed to find delta records for " +:+ table_name +:+ ": "
                 +:+ exn_msg e0) (Some e0)), s).
Proof.
  unfold find_delta, try_except, bind, count, lift_result, delta_query.
  cbn [eval]. intros [Hnone | (T & HT & Hcol)].
  - rewrite Hnone. eexists. reflexivity.
  - rewrite HT. unfold resolve_col. cbn [pred_col].
    change (upper TIMESTAMP_FIELD) with "CURRENT_TIMESTAMP". rewrite Hcol.
    eexists. reflexivity.
Qed.

End FilterAndErrors.

(** ** Further instances on the sample data *)

Lemma sample_config_well_formed : well_formed sample_config.
Proof. repeat constructor. Defined.

Lemma find_latest_timestamp_is_column_value_witness :
  exists m,
    find_latest_timestamp (engine := binary_collation) (DfTable "orders")
      sample_session = (inr m, sample_session)
    /\ (forall v, m = Some v ->
          exists r, In r (rows sample_orders) /\ cell_at 1 r = Some v).
Proof.
  destruct (find_latest_timestamp_is_column_value (engine := binary_collation)
              sample_session (DfTable "orders") sample_orders 1)
    as (m & Hrun & _ & Hin).
  - vm_compute. reflexivity.
  - reflexivity.
  - exists m. split; assumption.
Defined.

Lemma find_latest_timestamp_upper_bound_witness :
  exists w,
    find_latest_timestamp (engine := binary_collation) (DfTable "orders")
      sample_session = (inr (Some w), sample_session)
    /\ cell_gt (Collation := binary_collation) "2024-01-02" w = false.
Proof.
  apply (find_latest_timestamp_upper_bound (engine := binary_collation)
           sample_session (DfTable "orders") sample_orders 1
           [Some "3"; Some "2024-01-02"] "2024-01-02").
  - exact binary_collation_transitive.
  - vm_compute. reflexivity.
  - reflexivity.
  - right. right. left. reflexivity.
  - reflexivity.
Defined.

Lemma latest_of_delta_exceeds_watermark_witness :
  exists L,
    find_latest_timestamp (engine := binary_collation)
      (delta_query "orders" "2024-01-01T00:00:00") sample_session
    = (inr (Some L), sample_session)
    /\ cell_gt (Collation := binary_collation) L "2024-01-01T00:00:00" = true.
Proof.
  apply (latest_of_delta_exceeds_watermark (engine := binary_collation)
           sample_session "orders" "2024-01-01T00:00:00" sample_orders 1).
  - vm_compute. reflexivity.
  - reflexivity.
  - vm_compute. discriminate.
Defined.

Lemma delta_from_latest_is_empty_witness :
  find_delta (engine := binary_collation) "orders" "2024-01-03" sample_session
  = (inr (delta_query "orders" "2024-01-03", 0%Z), sample_session).
Proof.
  apply (delta_from_latest_is_empty (engine := binary_collation)
           sample_session "orders" "2024-01-01T00:00:00" "2024-01-03"
           sample_orders 1).
  - exact binary_collation_transitive.
  - vm_compute. reflexivity.
  - reflexivity.
  - vm_compute. reflexivity.
Defined.

Lemma update_config_touches_only_config_witness :
  (update_config "ORDERS" "' || silver_last_update || 'x" sample_session).2
    !! "ORDERS"
  = Some sample_orders.
Proof.
  rewrite (proj1 (update_config_touches_only_config
                    "ORDERS" "' || silver_last_update || 'x" sample_session)
             "ORDERS").
  - vm_compute. reflexivity.
  - discriminate.
Defined.

Lemma update_config_failure_keeps_store_witness :
  (update_config "a'b" "2024-01-03" sample_session).2 = sample_session.
Proof.
  eapply (update_config_failure_keeps_store "a'b" "2024-01-03" sample_session).
  vm_compute. reflexivity.
Defined.

Lemma update_config_without_config_table_witness :
  exists e,
    update_config "ORDERS" "2024-01-03" (<["ORDERS" := sample_orders]> ∅)
    = (inl e, <["ORDERS" := sample_orders]> ∅)
    /\ exn_cls e = ConfigError.
Proof.
  apply (update_config_without_config_table "ORDERS" "2024-01-03"
           (<["ORDERS" := sample_orders]> ∅)).
  vm_compute. reflexivity.
Defined.

Lemma update_config_then_read_witness :
  find_last_update_date (engine := binary_collation) "ORDERS"
    (update_config "ORDERS" "2024-01-03" sample_session).2
  = (inr (Some "2024-01-03"),
     (update_config "ORDERS" "2024-01-03" sample_session).2).
Proof.
  apply (update_config_then_read (engine := binary_collation)
           sample_session "ORDERS" "2024-01-03" sample_config 0 1).
  - reflexivity.
  - reflexivity.
  - exact sample_config_store.
  - exact sample_config_well_formed.
  - vm_compute. discriminate.
Defined.

Lemma update_config_keeps_other_watermarks_witness :
  (find_last_update_date (engine := binary_collation) "ITEMS"
     (update_config "ORDERS" "2024-01-03" sample_session).2).1
  = (find_last_update_date (engine := binary_collation) "ITEMS" sample_session).1.
Proof.
  apply (update_config_keeps_other_watermarks (engine := binary_collation)
           sample_session "ORDERS" "2024-01-03" "ITEMS").
  - reflexivity.
  - reflexivity.
  - discriminate.
Defined.

Lemma update_config_keeps_deltas_witness :
  (find_delta (engine := binary_collation) "orders" "2024-01-01T00:00:00"
     (update_config "ORDERS" "' || silver_last_update || 'x" sample_session).2).1
  = (find_delta (engine := binary_collation) "orders" "2024-01-01T00:00:00"
       sample_session).1.
Proof.
  apply (update_config_keeps_deltas (engine := binary_collation)
           sample_session "ORDERS" "' || silver_last_update || 'x"
           "orders" "2024-01-01T00:00:00").
  vm_compute. discriminate.
Defined.

Lemma remove_null_rows_again_witness :
  exists cleaned removed,
    remove_null_rows (engine := binary_collation) (DfTable "orders") sample_session
    = (inr (cleaned, removed), sample_session)
    /\ (0 <= removed <= 6)%Z
    /\ remove_null_rows (engine := binary_collation) cleaned sample_session
       = (inr (DfDropna HowAll cleaned, 0%Z), sample_session).
Proof.
  apply (remove_null_rows_again (engine := binary_collation)
           sample_session (DfTable "orders") sample_orders).
  vm_compute. reflexivity.
Defined.

Lemma remove_null_rows_of_delta_witness :
  remove_null_rows (engine := binary_collation)
    (delta_query "orders" "2024-01-01T00:00:00") sample_session
  = (inr (DfDropna HowAll (delta_query "orders" "2024-01-01T00:00:00"), 0%Z),
     sample_session).
Proof.
  apply (remove_null_rows_of_delta (engine := binary_collation)
           sample_session "orders" "2024-01-01T00:00:00" sample_orders 1).
  - vm_compute. reflexivity.
  - reflexivity.
  - reflexivity.
Defined.

Lemma find_last_update_date_raises_config_error_witness :
  exists e,
    (find_last_update_date (engine := binary_collation) "CUSTOMERS"
       sample_session).1 = inl e
    /\ exn_cls e = ConfigError /\ is_Some (exn_cause e).
Proof.
  eexists. split; [vm_compute; reflexivity|].
  apply (proj2 (find_last_update_date_raises_config_error
                  (engine := binary_collation) sample_session "CUSTOMERS")).
  vm_compute. reflexivity.
Defined.

Lemma data_functions_raise_data_error_witness :
  exists e,
    (find_delta (engine := binary_collation) "customers" "2024-01-01"
       sample_session).1 = inl e
    /\ exn_cls e = DataError /\ is_Some (exn_cause e).
Proof.
  eexists. split; [vm_compute; reflexivity|].
  apply (proj2 (proj1 (data_functions_raise_data_error
                         (engine := binary_collation) sample_session
                         (DfTable "customers") "customers" "2024-01-01"))).
  vm_compute. reflexivity.
Defined.

Lemma find_delta_missing_table_or_column_witness :
  exists e0,
    find_delta (engine := binary_collation) "customers" "2024-01-01"
      sample_session
    = (inl (Exn DataError
              ("Failed to find delta records for customers: " +:+ exn_msg e0)
              (Some e0)), sample_session).
Proof.
  apply (find_delta_missing_table_or_column (engine := binary_collation)
           sample_session "customers" "2024-01-01").
  left. vm_compute. reflexivity.
Defined.

(** ** Further inputs on which the stated behaviour does not hold *)

(** A row holding NaN in a DOUBLE column and NULL elsewhere has a column
    that is not NULL, yet [remove_null_rows] drops it; the text NaN in a
    string column is kept. *)
Lemma remove_null_rows_drops_nan_row :
  In [Some "NaN"; None] (rows sample_readings)
  /\ cell_at 0 [Some "NaN"; None] <> None
  /\ eval (engine := binary_collation) (DfTable "READINGS")
       sample_readings_session = inr sample_readings
  /\ remove_null_rows (engine := binary_collation) (DfTable "READINGS")
       sample_readings_session
     = (inr (DfDropna HowAll (DfTable "READINGS"), 2%Z), sample_readings_session)
  /\ eval (engine := binary_collation) (DfDropna HowAll (DfTable "READINGS"))
       sample_readings_session
     = inr (Table ["VALUE"; "NOTE"] [DoubleType; StringType]
              [[Some "1.5"; None]; [None; Some "NaN"]]).
Proof.
  split; [left; reflexivity|]. split; [discriminate|].
  repeat split; vm_compute; reflexivity.
Qed.

(** A timestamp ending in a backslash and a table name ending in a
    comment, neither with a quote: the backslash takes the closing quote
    into the constant, the table name is read as SQL, and the statement
    prepends to every stored value on every run. *)
Example update_config_backslash_comment_accumulates :
  (update_config "|| silver_last_update --" "a\"
     (update_config "|| silver_last_update --" "a\" sample_session).2).2
  <> (update_config "|| silver_last_update --" "a\" sample_session).2.
Proof.
  intros Heq. apply (f_equal (fun m : Session => m !! CONFIG_TABLE)) in Heq.
  vm_compute in Heq. discriminate.
Qed.
